(** * Workout Tracker API: a shallow embedding of [backend/main.py]

    The request handlers of [backend/main.py] are embedded as programs of a
    small session monad over a relational store with the four tables of
    [backend/models.py].  A handler reads and writes the working copy of a
    transaction; [db.commit()] makes the working copy the stored database
    or is refused, and a request that ends leaves only what was committed.

    Python floats are IEEE 754 binary64 values, taken from the Standard
    Library's executable specification [SpecFloat]; Python ints are [Z].
    The database is the SQLite file that [backend/database.py] opens when
    [DATABASE_URL] is not set: SQLite keeps a NaN as NULL and a float zero
    without its sign, and its driver binds an int as a 64-bit INTEGER.
    Requests are served one at a time. *)

From Stdlib Require Import ZArith List String Bool Lia.
From Stdlib Require Import Floats.SpecFloat.
Import ListNotations.
Local Open Scope string_scope.
Local Open Scope Z_scope.

Set Implicit Arguments.

(** ** Python numbers *)

Module Py.

(** A Python [float]: binary64, 53 bits of precision.  The type also holds
    mantissa and exponent pairs that are not in canonical form; the
    arithmetic below only produces canonical ones. *)
Definition float := spec_float.
Definition prec : Z := 53.
Definition emax : Z := 1024.

Definition fmul : float -> float -> float := SFmul prec emax.
Definition fadd : float -> float -> float := SFadd prec emax.
Definition fsub : float -> float -> float := SFsub prec emax.
Definition fabs : float -> float := SFabs.
Definition flt : float -> float -> bool := SFltb.
Definition fle : float -> float -> bool := SFleb.


Definition is_finite (f : float) : bool :=
  match f with S754_zero _ | S754_finite _ _ _ => true | _ => false end.

(** What a handler can raise, and what FastAPI raises on a return value
    that does not fit the [response_model] of the route. *)
Inductive exn :=
| HTTPException (status_code : Z) (detail : string)
| OverflowError
| ValueError
| OperationalError
| InvalidRequestError
| ResponseValidationError.

Definition result (A : Type) := (exn + A)%type.

(** [float(n)] for an [int]: rounds to nearest even, and raises when the
    integer is beyond the range of binary64. *)
Definition float_of_int (n : Z) : result float :=
  match binary_normalize prec emax n 0 false with
  | S754_infinity _ => inl OverflowError
  | f => inr f
  end.

(** The Python values met by the arithmetic of the handlers. *)
Inductive num :=
| Int (n : Z)
| Float (f : float).

(** [bool(f)]: a float is false exactly when it is a zero. *)
Definition truthy (f : float) : bool :=
  match f with S754_zero _ => false | _ => true end.

(** [x or 0] for an attribute that is a float or [None]: [None] and the
    float zeros are false. *)
Definition or0 (x : option float) : num :=
  match x with
  | Some f => if truthy f then Float f else Int 0
  | None => Int 0
  end.

(** [a * n] for a float [a] and an int [n]. *)
Definition fmul_int (a : float) (n : Z) : result float :=
  match float_of_int n with
  | inl e => inl e
  | inr b => inr (fmul a b)
  end.

(** [a + b] *)
Definition add (a b : num) : result num :=
  match a, b with
  | Int x, Int y => inr (Int (x + y))
  | Int x, Float g =>
      match float_of_int x with
      | inl e => inl e
      | inr f => inr (Float (fadd f g))
      end
  | Float f, Int y =>
      match float_of_int y with
      | inl e => inl e
      | inr g => inr (Float (fadd f g))
      end
  | Float f, Float g => inr (Float (fadd f g))
  end.

(** The exact order between an int and a float, as Python compares them. *)
Definition compare_int_float (n : Z) (f : float) : option comparison :=
  match f with
  | S754_nan => None
  | S754_infinity s => Some (if s then Gt else Lt)
  | S754_zero _ => Some (n ?= 0)
  | S754_finite s m e =>
      let v := if s then Z.neg m else Z.pos m in
      Some (if 0 <=? e then n ?= v * 2 ^ e else n * 2 ^ (- e) ?= v)
  end.

(** [a > b] *)
Definition gt (a b : num) : bool :=
  match a, b with
  | Int x, Int y => y <? x
  | Int x, Float g =>
      match compare_int_float x g with Some Gt => true | _ => false end
  | Float f, Int y =>
      match compare_int_float y f with Some Lt => true | _ => false end
  | Float f, Float g => flt g f
  end.

(** [sum(xs)] starts from the int 0 and adds the items from left to
    right.  CPython keeps the running total in a C [long] while the items
    are ints, and in a C [double] once a float has come; from version 3.12
    on, the float loop also carries the rounding errors of its additions
    (Neumaier's compensation) and adds them to the total at the end, which
    can change the last bits of a float sum. *)
Inductive cpython := Before312 | From312.

(** The general loop: [result = result + item]. *)
Fixpoint sum_from (acc : num) (xs : list num) : result num :=
  match xs with
  | [] => inr acc
  | x :: xs' =>
      match add acc x with
      | inl e => inl e
      | inr acc' => sum_from acc' xs'
      end
  end.

(** An int that a C [long] of 64 bits holds. *)
Definition fits_long (n : Z) : bool := (- 2 ^ 63 <=? n) && (n <? 2 ^ 63).

(** The total once the float loop ends: the compensation is added unless
    it is zero, an infinity or a NaN. *)
Definition compensated (v : cpython) (f c : float) : float :=
  match v with
  | Before312 => f
  | From312 => if truthy c && is_finite c then fadd f c else f
  end.

(** The float loop, with the total [f] and the compensation [c]. *)
Fixpoint sum_floats (v : cpython) (f c : float) (xs : list num) : result num :=
  match xs with
  | [] => inr (Float (compensated v f c))
  | Float x :: xs' =>
      match v with
      | Before312 => sum_floats v (fadd f x) c xs'
      | From312 =>
          let t := fadd f x in
          let c' := if fle (fabs x) (fabs f)
                    then fadd c (fadd (fsub f t) x)
                    else fadd c (fadd (fsub x t) f) in
          sum_floats v t c' xs'
      end
  | Int n :: xs' =>
      if fits_long n
      then match float_of_int n with
           | inl e => inl e
           | inr y => sum_floats v (fadd f y) c xs'
           end
      else match add (Float (compensated v f c)) (Int n) with
           | inl e => inl e
           | inr acc => sum_from acc xs'
           end
  end.

(** The int loop, with the total [i]. *)
Fixpoint sum_ints (v : cpython) (i : Z) (xs : list num) : result num :=
  match xs with
  | [] => inr (Int i)
  | Int b :: xs' =>
      if fits_long b && fits_long (i + b)
      then sum_ints v (i + b) xs'
      else sum_from (Int (i + b)) xs'
  | Float x :: xs' =>
      match float_of_int i with
      | inl e => inl e
      | inr y => sum_floats v (fadd y x) (S754_zero false) xs'
      end
  end.

Definition sum (v : cpython) (xs : list num) : result num := sum_ints v 0 xs.

(** [max(xs, default=d)]: the first item, replaced by each later item
    that compares strictly greater. *)
Fixpoint max_from (m : num) (xs : list num) : num :=
  match xs with
  | [] => m
  | x :: xs' => max_from (if gt x m then x else m) xs'
  end.

Definition max (xs : list num) (default : num) : num :=
  match xs with
  | [] => default
  | x :: xs' => max_from x xs'
  end.

(** [int(f)] for a float: truncation towards zero; raises on an infinity
    or a NaN. *)
Definition int_of_float (f : float) : result Z :=
  match f with
  | S754_zero _ => inr 0
  | S754_finite s m e =>
      let q := if 0 <=? e then Z.pos m * 2 ^ e else Z.pos m / 2 ^ (- e) in
      inr (if s then - q else q)
  | S754_infinity _ => inl OverflowError
  | S754_nan => inl ValueError
  end.

(** [int(x)] *)
Definition int (x : num) : result Z :=
  match x with
  | Int n => inr n
  | Float f => int_of_float f
  end.

(** [w * reps * sets], evaluated from left to right. *)
Definition product (w : float) (reps sets : Z) : result float :=
  match fmul_int w reps with
  | inl e => inl e
  | inr w_reps => fmul_int w_reps sets
  end.

(** [m * 2**e] as a float, for writing down float constants. *)
Definition dyadic (m e : Z) : float := binary_normalize prec emax m e false.

(** [set(xs)] for strings, as the list of its distinct members. *)
Definition set (xs : list string) : list string := nodup string_dec xs.

End Py.

(** ** What SQLite keeps of a value

    The driver binds a Python int as a 64-bit INTEGER and raises
    [OverflowError], before the statement runs, for an int beyond that
    range; the key of a stored row is always within it.  The check is
    written out where [create_record] binds the [exercise_id], the [reps]
    and the [sets] of a request body; the handlers that take a key as a
    path parameter are embedded for keys within the range.  A float column
    keeps an infinity as it is, a NaN as NULL, and a zero without its
    sign, so that is what a row read back holds. *)

Definition fits_int64 (n : Z) : bool := (- 2 ^ 63 <=? n) && (n <? 2 ^ 63).

Definition stored_float (f : Py.float) : option Py.float :=
  match f with
  | S754_nan => None
  | S754_zero _ => Some (S754_zero false)
  | _ => Some f
  end.

(** ** The tables of [backend/models.py]

    [created_at] is filled in by the database server's clock and is read by
    no handler; it is left out of the rows. *)

Module User.
Record t := mk { id : Z; email : string; hashed_password : string }.
End User.

Module Category.
Record t := mk { id : Z; name : string; user_id : Z }.
End Category.

Module Exercise.
Record t := mk
  { id : Z; name : string; category_id : option Z; user_id : Z }.

Definition with_category_id (c : option Z) (e : t) : t :=
  mk (id e) (name e) c (user_id e).
End Exercise.

(** The class [Record] of [models.py], table [workout_records].  The
    float columns [weight] and [volume] are nullable. *)
Module WorkoutRecord.
Record t := mk
  { id : Z;
    date : string;
    exercise_id : option Z;
    exercise_name : string;
    weight : option Py.float;
    reps : Z;
    sets : Z;
    memo : option string;
    volume : option Py.float;
    user_id : Z }.

Definition with_exercise_id (x : option Z) (r : t) : t :=
  mk (id r) (date r) x (exercise_name r) (weight r) (reps r) (sets r)
     (memo r) (volume r) (user_id r).
End WorkoutRecord.

(** ** The request bodies of [backend/schemas.py] *)

Module UserCreate.
Record t := mk { email : string; password : string }.
End UserCreate.

Module CategoryCreate.
Record t := mk { name : string }.
End CategoryCreate.

Module ExerciseCreate.
Record t := mk { name : string; category_id : option Z }.
End ExerciseCreate.

Module ExerciseUpdate.
Record t := mk { category_id : option Z }.
End ExerciseUpdate.

Module RecordCreate.
Record t := mk
  { date : string; exercise_id : Z; weight : Py.float; reps : Z; sets : Z }.
End RecordCreate.

(** [RecordResponse], the [response_model] of the two routes that
    return records.  FastAPI builds it from the attributes of the row that
    the handler returns, and raises when a field that is not optional is
    [None]. *)
Module RecordResponse.
Record t := mk
  { id : Z;
    date : string;
    exercise_id : Z;
    exercise_name : string;
    weight : Py.float;
    reps : Z;
    sets : Z;
    volume : Py.float }.

Definition model_validate (r : WorkoutRecord.t) : Py.result t :=
  match WorkoutRecord.exercise_id r, WorkoutRecord.weight r,
        WorkoutRecord.volume r with
  | Some exercise_id, Some weight, Some volume =>
      inr (mk (WorkoutRecord.id r) (WorkoutRecord.date r) exercise_id
             (WorkoutRecord.exercise_name r) weight (WorkoutRecord.reps r)
             (WorkoutRecord.sets r) volume)
  | _, _, _ => inl Py.ResponseValidationError
  end.

(** The same for [List[RecordResponse]]. *)
Fixpoint model_validate_all (rs : list WorkoutRecord.t) : Py.result (list t) :=
  match rs with
  | [] => inr []
  | r :: rs' =>
      match model_validate r with
      | inl e => inl e
      | inr x =>
          match model_validate_all rs' with
          | inl e => inl e
          | inr xs => inr (x :: xs)
          end
      end
  end.
End RecordResponse.

Module StatsResponse.
Record t := mk
  { total_workouts : Z; total_volume : Z; max_weight : Py.num }.
End StatsResponse.

(** ** The database and the SQLAlchemy session *)

Record DB := mkDB
  { users : list User.t;
    categories : list Category.t;
    exercises : list Exercise.t;
    workout_records : list WorkoutRecord.t }.

Definition empty_db : DB := mkDB [] [] [] [].

(** The primary key that the database gives to a new row: the integer
    after the largest key stored in the table.  The proofs only use that
    the new key is above every stored key.  Foreign keys are stored as they
    are given: the database does not check them. *)
Definition fresh_id (ids : list Z) : Z := 1 + fold_right Z.max 0 ids.

Definition option_Z_eqb (a b : option Z) : bool :=
  match a, b with
  | Some x, Some y => x =? y
  | None, None => true
  | _, _ => false
  end.

(** A session holds the committed database, the working copy of the open
    transaction, and the fate of the commits to come: [false] is a commit
    that the database refuses; once the list is used up commits go
    through. *)
Record Session := mkSession
  { stored : DB; txn : DB; outcomes : list bool }.

Definition M (A : Type) : Type := Session -> Py.result A * Session.

Definition ret {A} (a : A) : M A := fun s => (inr a, s).

Definition bind {A B} (c : M A) (k : A -> M B) : M B :=
  fun s =>
    match c s with
    | (inl e, s') => (inl e, s')
    | (inr a, s') => k a s'
    end.

Definition raise {A} (e : Py.exn) : M A := fun s => (inl e, s).

Notation "x <- c ;; k" := (bind c (fun x => k))
  (at level 61, c at next level, right associativity).
Notation "c ;; k" := (bind c (fun _ => k))
  (at level 61, right associativity).

(** [for x in xs: body(x)] *)
Fixpoint for_each {A} (xs : list A) (body : A -> M unit) : M unit :=
  match xs with
  | [] => ret tt
  | x :: xs' => body x ;; for_each xs' body
  end.

(** Lifting a Python computation that may raise. *)
Definition lift {A} (r : Py.result A) : M A := fun s => (r, s).

(** [db.query(Model).filter(p).all()] *)
Definition query_all {A} (table : DB -> list A) (p : A -> bool) : M (list A) :=
  fun s => (inr (filter p (table (txn s))), s).

(** [db.query(Model).filter(p).first()] *)
Definition query_first {A} (table : DB -> list A) (p : A -> bool)
  : M (option A) :=
  fun s => (inr (hd_error (filter p (table (txn s)))), s).

Definition update_txn (f : DB -> DB) : M unit :=
  fun s => (inr tt, mkSession (stored s) (f (txn s)) (outcomes s)).

(** [db.add(obj)]: the row enters the transaction under a new key. *)
Definition add_user (email hashed_password : string) : M User.t :=
  fun s =>
    let d := txn s in
    let u := User.mk (fresh_id (map User.id (users d))) email hashed_password in
    (inr u,
     mkSession (stored s)
       (mkDB (users d ++ [u]) (categories d) (exercises d) (workout_records d))
       (outcomes s)).

Definition add_category (name : string) (user_id : Z) : M Category.t :=
  fun s =>
    let d := txn s in
    let c := Category.mk (fresh_id (map Category.id (categories d))) name user_id in
    (inr c,
     mkSession (stored s)
       (mkDB (users d) (categories d ++ [c]) (exercises d) (workout_records d))
       (outcomes s)).

Definition add_exercise (name : string) (category_id : option Z) (user_id : Z)
  : M Exercise.t :=
  fun s =>
    let d := txn s in
    let e := Exercise.mk (fresh_id (map Exercise.id (exercises d)))
               name category_id user_id in
    (inr e,
     mkSession (stored s)
       (mkDB (users d) (categories d) (exercises d ++ [e]) (workout_records d))
       (outcomes s)).

(** For a record the INSERT binds the int columns [reps] and [sets] of
    the request; the row enters the transaction as SQLite keeps it, and the
    object returned is the one in memory, with the floats as they were
    given. *)
Definition add_record (date : string) (exercise_id : Z) (exercise_name : string)
    (weight : Py.float) (reps sets : Z) (volume : Py.float) (user_id : Z)
  : M WorkoutRecord.t :=
  fun s =>
    let d := txn s in
    let id := fresh_id (map WorkoutRecord.id (workout_records d)) in
    let r := WorkoutRecord.mk id date (Some exercise_id) exercise_name
               (Some weight) reps sets None (Some volume) user_id in
    let row := WorkoutRecord.mk id date (Some exercise_id) exercise_name
                 (stored_float weight) reps sets None (stored_float volume)
                 user_id in
    if fits_int64 reps && fits_int64 sets
    then (inr r,
          mkSession (stored s)
            (mkDB (users d) (categories d) (exercises d)
               (workout_records d ++ [row]))
            (outcomes s))
    else (inl Py.OverflowError, s).

(** [db.refresh(obj)]: the attributes are read again from the row under
    the key of [obj].  The handlers call it on the row they have just
    committed; it is written out for records, whose floats can come back
    different, and left out for users, categories and exercises, which come
    back as they were sent. *)
Definition refresh_record (obj : WorkoutRecord.t) : M WorkoutRecord.t :=
  fun s =>
    match hd_error (filter (fun r => WorkoutRecord.id r =? WorkoutRecord.id obj)
                      (workout_records (txn s))) with
    | Some row => (inr row, s)
    | None => (inl Py.InvalidRequestError, s)
    end.

(** A statement that has the int [n] among its parameters. *)
Definition bind_int (n : Z) : M unit :=
  fun s => if fits_int64 n then (inr tt, s) else (inl Py.OverflowError, s).

(** [ex.category_id = c]: the row of [ex] is updated through its key. *)
Definition assign_category (id : Z) (c : option Z) (e : Exercise.t)
  : Exercise.t :=
  if Exercise.id e =? id then Exercise.with_category_id c e else e.

Definition set_category_id (ex : Exercise.t) (c : option Z) : M Exercise.t :=
  fun s =>
    let d := txn s in
    (inr (Exercise.with_category_id c ex),
     mkSession (stored s)
       (mkDB (users d) (categories d)
          (map (assign_category (Exercise.id ex) c) (exercises d))
          (workout_records d))
       (outcomes s)).

(** [db.delete(obj)].  The one-to-many relationships [Category.exercises]
    and [Exercise.records] of [models.py] carry no delete cascade, so the
    session clears the foreign key of the rows that referenced the deleted
    parent. *)
Definition clear_category (id : Z) (e : Exercise.t) : Exercise.t :=
  if option_Z_eqb (Exercise.category_id e) (Some id)
  then Exercise.with_category_id None e else e.

Definition clear_exercise (id : Z) (r : WorkoutRecord.t) : WorkoutRecord.t :=
  if option_Z_eqb (WorkoutRecord.exercise_id r) (Some id)
  then WorkoutRecord.with_exercise_id None r else r.

Definition delete_category_row (c : Category.t) : M unit :=
  update_txn (fun d =>
    mkDB (users d)
      (filter (fun x => negb (Category.id x =? Category.id c)) (categories d))
      (map (clear_category (Category.id c)) (exercises d))
      (workout_records d)).

Definition delete_exercise_row (e : Exercise.t) : M unit :=
  update_txn (fun d =>
    mkDB (users d) (categories d)
      (filter (fun x => negb (Exercise.id x =? Exercise.id e)) (exercises d))
      (map (clear_exercise (Exercise.id e)) (workout_records d))).

Definition delete_record_row (r : WorkoutRecord.t) : M unit :=
  update_txn (fun d =>
    mkDB (users d) (categories d) (exercises d)
      (filter (fun x => negb (WorkoutRecord.id x =? WorkoutRecord.id r))
         (workout_records d))).

(** [db.commit()]: the transaction becomes the stored database, or the
    database refuses it, the transaction is rolled back and the error
    propagates. *)
Definition commit : M unit :=
  fun s =>
    match outcomes s with
    | false :: rest => (inl Py.OperationalError, mkSession (stored s) (stored s) rest)
    | _ => (inr tt, mkSession (txn s) (txn s) (tl (outcomes s)))
    end.

(** One request: [get_db] opens a session on the stored database, the
    handler runs, and closing the session drops what was not committed. *)
Definition request {A} (handler : M A) (fate : list bool) (db : DB)
  : Py.result A * DB :=
  let (r, s) := handler (mkSession db db fate) in (r, stored s).

(** ** The handlers of [backend/main.py] *)

Section Handlers.

(** [auth.get_password_hash]: the module [auth] is outside the embedded
    files, and the handlers only store what it returns. *)
Variable get_password_hash : string -> string.

Definition default_exercises : list string :=
  ["ベンチプレス"; "スクワット"; "デッドリフト";
   "懸垂"; "ショルダープレス"; "バーベルロー"].

Definition register (user : UserCreate.t) : M User.t :=
  db_user <- query_first users
               (fun u => String.eqb (User.email u) (UserCreate.email user)) ;;
  match db_user with
  | Some _ =>
      raise (Py.HTTPException 400 "このメールアドレスは既に使用されています")
  | None =>
      let hashed_password := get_password_hash (UserCreate.password user) in
      new_user <- add_user (UserCreate.email user) hashed_password ;;
      commit ;;
      for_each default_exercises
        (fun name => _ <- add_exercise name None (User.id new_user) ;; ret tt) ;;
      commit ;;
      ret new_user
  end.

Definition get_categories (current_user : User.t) : M (list Category.t) :=
  query_all categories
    (fun c => Category.user_id c =? User.id current_user).

Definition create_category (category : CategoryCreate.t)
    (current_user : User.t) : M Category.t :=
  new_category <- add_category (CategoryCreate.name category)
                    (User.id current_user) ;;
  commit ;;
  ret new_category.

(** The unlink step of [delete_category], under its comment
    [# Remove category from exercises]: the query and the loop. *)
Definition unlink_exercises (category_id : Z) : M unit :=
  exercises <- query_all exercises
                 (fun e => option_Z_eqb (Exercise.category_id e)
                             (Some category_id)) ;;
  for_each exercises
    (fun ex => _ <- set_category_id ex None ;; ret tt).

Definition delete_category (category_id : Z) (current_user : User.t)
  : M string :=
  category <- query_first categories
                (fun c => (Category.id c =? category_id)
                          && (Category.user_id c =? User.id current_user)) ;;
  match category with
  | None => raise (Py.HTTPException 404 "カテゴリが見つかりません")
  | Some category =>
      unlink_exercises category_id ;;
      delete_category_row category ;;
      commit ;;
      ret "削除しました"
  end.

Definition get_exercises (current_user : User.t) : M (list Exercise.t) :=
  query_all exercises
    (fun e => Exercise.user_id e =? User.id current_user).

Definition create_exercise (exercise : ExerciseCreate.t)
    (current_user : User.t) : M Exercise.t :=
  new_exercise <- add_exercise (ExerciseCreate.name exercise)
                    (ExerciseCreate.category_id exercise)
                    (User.id current_user) ;;
  commit ;;
  ret new_exercise.

Definition update_exercise (exercise_id : Z)
    (exercise_update : ExerciseUpdate.t) (current_user : User.t)
  : M Exercise.t :=
  exercise <- query_first exercises
                (fun e => (Exercise.id e =? exercise_id)
                          && (Exercise.user_id e =? User.id current_user)) ;;
  match exercise with
  | None => raise (Py.HTTPException 404 "エクササイズが見つかりません")
  | Some exercise =>
      exercise <- set_category_id exercise
                    (ExerciseUpdate.category_id exercise_update) ;;
      commit ;;
      ret exercise
  end.

Definition delete_exercise (exercise_id : Z) (current_user : User.t)
  : M string :=
  exercise <- query_first exercises
                (fun e => (Exercise.id e =? exercise_id)
                          && (Exercise.user_id e =? User.id current_user)) ;;
  match exercise with
  | None => raise (Py.HTTPException 404 "エクササイズが見つかりません")
  | Some exercise =>
      delete_exercise_row exercise ;;
      commit ;;
      ret "削除しました"
  end.

Definition get_records (current_user : User.t) : M (list WorkoutRecord.t) :=
  query_all workout_records
    (fun r => WorkoutRecord.user_id r =? User.id current_user).

(** The lookup binds the [exercise_id] of the request body. *)
Definition create_record (record : RecordCreate.t) (current_user : User.t)
  : M WorkoutRecord.t :=
  bind_int (RecordCreate.exercise_id record) ;;
  exercise <- query_first exercises
                (fun e => (Exercise.id e =? RecordCreate.exercise_id record)
                          && (Exercise.user_id e =? User.id current_user)) ;;
  match exercise with
  | None => raise (Py.HTTPException 404 "エクササイズが見つかりません")
  | Some exercise =>
      volume <- lift (Py.product (RecordCreate.weight record)
                        (RecordCreate.reps record)
                        (RecordCreate.sets record)) ;;
      new_record <- add_record (RecordCreate.date record)
                      (RecordCreate.exercise_id record)
                      (Exercise.name exercise)
                      (RecordCreate.weight record)
                      (RecordCreate.reps record)
                      (RecordCreate.sets record)
                      volume
                      (User.id current_user) ;;
      commit ;;
      new_record <- refresh_record new_record ;;
      ret new_record
  end.

Definition delete_record (record_id : Z) (current_user : User.t)
  : M string :=
  record <- query_first workout_records
              (fun r => (WorkoutRecord.id r =? record_id)
                        && (WorkoutRecord.user_id r =? User.id current_user)) ;;
  match record with
  | None => raise (Py.HTTPException 404 "記録が見つかりません")
  | Some record =>
      delete_record_row record ;;
      commit ;;
      ret "削除しました"
  end.

(** [get_stats], run by the interpreter [python]. *)
Definition get_stats (python : Py.cpython) (current_user : User.t)
  : M StatsResponse.t :=
  records <- query_all workout_records
               (fun r => WorkoutRecord.user_id r =? User.id current_user) ;;
  let unique_dates := Py.set (map WorkoutRecord.date records) in
  total_volume <- lift (Py.sum python
                          (map (fun r => Py.or0 (WorkoutRecord.volume r))
                             records)) ;;
  let max_weight :=
    Py.max (map (fun r => Py.or0 (WorkoutRecord.weight r)) records)
      (Py.Int 0) in
  total_volume_int <- lift (Py.int total_volume) ;;
  ret (StatsResponse.mk (Z.of_nat (List.length unique_dates))
         total_volume_int max_weight).

(** *** The responses of the record routes

    What the client of [GET /records] and [POST /records] is sent: the
    rows that the handler returns, once they have gone through the
    [response_model] of the route. *)

Definition get_records_response (current_user : User.t)
  : M (list RecordResponse.t) :=
  records <- get_records current_user ;;
  lift (RecordResponse.model_validate_all records).

Definition create_record_response (record : RecordCreate.t)
    (current_user : User.t) : M RecordResponse.t :=
  new_record <- create_record record current_user ;;
  lift (RecordResponse.model_validate new_record).

(** *** The API as a transition system

    The calls are the endpoints that read or write the four tables;
    [login] and [get_me] go through the [auth] module and write nothing. *)

Inductive call :=
| Register (user : UserCreate.t)
| GetCategories (current_user : User.t)
| CreateCategory (category : CategoryCreate.t) (current_user : User.t)
| DeleteCategory (category_id : Z) (current_user : User.t)
| GetExercises (current_user : User.t)
| CreateExercise (exercise : ExerciseCreate.t) (current_user : User.t)
| UpdateExercise (exercise_id : Z) (exercise_update : ExerciseUpdate.t)
    (current_user : User.t)
| DeleteExercise (exercise_id : Z) (current_user : User.t)
| GetRecords (current_user : User.t)
| CreateRecord (record : RecordCreate.t) (current_user : User.t)
| DeleteRecord (record_id : Z) (current_user : User.t)
| GetStats (current_user : User.t).

(** The database after a call is served.  [get_stats] writes nothing,
    whichever interpreter runs it. *)
Definition serve (c : call) (fate : list bool) (db : DB) : DB :=
  match c with
  | Register user => snd (request (register user) fate db)
  | GetCategories u => snd (request (get_categories u) fate db)
  | CreateCategory category u => snd (request (create_category category u) fate db)
  | DeleteCategory category_id u => snd (request (delete_category category_id u) fate db)
  | GetExercises u => snd (request (get_exercises u) fate db)
  | CreateExercise exercise u => snd (request (create_exercise exercise u) fate db)
  | UpdateExercise exercise_id upd u => snd (request (update_exercise exercise_id upd u) fate db)
  | DeleteExercise exercise_id u => snd (request (delete_exercise exercise_id u) fate db)
  | GetRecords u => snd (request (get_records u) fate db)
  | CreateRecord record u => snd (request (create_record record u) fate db)
  | DeleteRecord record_id u => snd (request (delete_record record_id u) fate db)
  | GetStats u => snd (request (get_stats Py.From312 u) fate db)
  end.

(** The user a call acts for, when it is an authenticated one. *)
Definition caller (c : call) : option User.t :=
  match c with
  | Register _ => None
  | GetCategories u | CreateCategory _ u | DeleteCategory _ u
  | GetExercises u | CreateExercise _ u | UpdateExercise _ _ u
  | DeleteExercise _ u | GetRecords u | CreateRecord _ u
  | DeleteRecord _ u | GetStats u => Some u
  end.

(** Modelled from the spec: [auth.get_current_user] is outside the
    embedded files; the token verifier resolves the acting user, so the
    [current_user] of an authenticated call is a stored user. *)
Definition authenticated (c : call) (db : DB) : Prop :=
  match caller c with
  | None => True
  | Some u => In u (users db)
  end.

(** The databases that a run of calls leads to from [start]. *)
Inductive reaches (start : DB) : DB -> Prop :=
| reaches_refl : reaches start start
| reaches_serve c fate db :
    reaches start db -> authenticated c db ->
    reaches start (serve c fate db).

Definition reachable : DB -> Prop := reaches empty_db.

End Handlers.

(** ** Properties of the stored data *)

(** Primary keys are unique in every table. *)
Definition pk_unique (db : DB) : Prop :=
  NoDup (map User.id (users db))
  /\ NoDup (map Category.id (categories db))
  /\ NoDup (map Exercise.id (exercises db))
  /\ NoDup (map WorkoutRecord.id (workout_records db)).

(** Every row of the three owned tables belongs to a stored user. *)
Definition owners_stored (db : DB) : Prop :=
  (forall c, In c (categories db) ->
     In (Category.user_id c) (map User.id (users db)))
  /\ (forall e, In e (exercises db) ->
     In (Exercise.user_id e) (map User.id (users db)))
  /\ (forall r, In r (workout_records db) ->
     In (WorkoutRecord.user_id r) (map User.id (users db))).

(** The first commit of a request goes through. *)
Definition commits (fate : list bool) : bool := hd true fate.

(** The effect of the unlink loop of [delete_category] on the exercises. *)
Definition unlink_all (xs es : list Exercise.t) : list Exercise.t :=
  fold_left (fun acc ex => map (assign_category (Exercise.id ex) None) acc) xs es.

(** The effect of the seeding loop of [register] on the exercises. *)
Fixpoint seed (names : list string) (uid : Z) (es : list Exercise.t)
  : list Exercise.t :=
  match names with
  | [] => es
  | n :: ns =>
      seed ns uid
        (es ++ [Exercise.mk (fresh_id (map Exercise.id es)) n None uid])
  end.

(** The database once [delete_category] has committed. *)
Definition without_category (cid : Z) (db : DB) : DB :=
  mkDB (users db)
    (filter (fun x => negb (Category.id x =? cid)) (categories db))
    (map (clear_category cid) (exercises db))
    (workout_records db).

(** The row that [create_record] stores for an exercise it found. *)
Definition new_record_row (record : RecordCreate.t) (u : User.t)
    (exercise : Exercise.t) (volume : Py.float) (db : DB) : WorkoutRecord.t :=
  WorkoutRecord.mk (fresh_id (map WorkoutRecord.id (workout_records db)))
    (RecordCreate.date record) (Some (RecordCreate.exercise_id record))
    (Exercise.name exercise) (stored_float (RecordCreate.weight record))
    (RecordCreate.reps record) (RecordCreate.sets record) None
    (stored_float volume) (User.id u).


(** ** A small world for the worked examples *)

Module Example.

(** A stand-in for [auth.get_password_hash]. *)
Definition hash (password : string) : string := "$2b$12$" ++ password.

Definition alice_form := UserCreate.mk "alice@example.com" "correct horse".
Definition bob_form := UserCreate.mk "bob@example.com" "battery staple".

Definition alice : User.t :=
  Eval vm_compute in
    User.mk 1 "alice@example.com" (hash "correct horse").
Definition bob : User.t :=
  Eval vm_compute in
    User.mk 2 "bob@example.com" (hash "battery staple").

(** The float 50.0. *)
Definition f50 : Py.float := Eval vm_compute in Py.dyadic 50 0.

Definition legs := CategoryCreate.mk "legs".
Definition lunge := ExerciseCreate.mk "lunge" (Some 1).
Definition borrowed := ExerciseCreate.mk "leg press" (Some 1).
Definition bench := RecordCreate.mk "2024-01-01" 7 f50 10 3.

(** Alice registers, then Bob; Bob creates the category 1 and an exercise
    in it; Alice creates an exercise naming Bob's category; Bob logs a
    record on his exercise 7. *)
Definition db1 : DB :=
  Eval vm_compute in serve hash (Register alice_form) [] empty_db.
Definition db2 : DB :=
  Eval vm_compute in serve hash (Register bob_form) [] db1.
Definition db3 : DB :=
  Eval vm_compute in serve hash (CreateCategory legs bob) [] db2.
Definition db4 : DB :=
  Eval vm_compute in serve hash (CreateExercise lunge bob) [] db3.
Definition db5 : DB :=
  Eval vm_compute in serve hash (CreateExercise borrowed alice) [] db4.
Definition db6 : DB :=
  Eval vm_compute in serve hash (CreateRecord bench bob) [] db5.

(** The row of Bob's record in [db6], and the float 1500.0. *)
Definition f1500 : Py.float := Eval vm_compute in Py.dyadic 1500 0.
Definition logged : WorkoutRecord.t :=
  Eval vm_compute in
    WorkoutRecord.mk 1 "2024-01-01" (Some 7) "ベンチプレス" (Some f50) 10 3
      None (Some f1500) 2.

(** The example of the specification: Alice logs three records, dated
    2024-01-01, 2024-01-01 and 2024-01-02, of volumes 100, 50 and 200. *)
Definition f100 : Py.float := Eval vm_compute in Py.dyadic 100 0.
Definition f200 : Py.float := Eval vm_compute in Py.dyadic 200 0.
Definition db7 : DB :=
  Eval vm_compute in
    serve hash (CreateRecord (RecordCreate.mk "2024-01-01" 1 f100 1 1) alice)
      [] db6.
Definition db8 : DB :=
  Eval vm_compute in
    serve hash (CreateRecord (RecordCreate.mk "2024-01-01" 2 f50 1 1) alice)
      [] db7.
Definition db9 : DB :=
  Eval vm_compute in
    serve hash (CreateRecord (RecordCreate.mk "2024-01-02" 1 f200 1 1) alice)
      [] db8.

(** Bob logs one more record, of weight 52.75 and volume 52.75. *)
Definition f52_75 : Py.float := Eval vm_compute in Py.dyadic 211 (-2).
Definition db10 : DB :=
  Eval vm_compute in
    serve hash (CreateRecord (RecordCreate.mk "2024-01-03" 7 f52_75 1 1) bob)
      [] db9.






End Example.

(** ** Registration, as the specification reads it *)

(** The exercises of the user [uid] are the six defaults, uncategorized. *)
Definition owns_six_defaults (uid : Z) (db : DB) : Prop :=
  let own := filter (fun e => Exercise.user_id e =? uid) (exercises db) in
  List.length own = 6%nat
  /\ map Exercise.name own = default_exercises
  /\ Forall (fun e => Exercise.category_id e = None) own.

(** Registration is all or nothing: afterwards either a user with the
    registered email is stored together with the six defaults, or no such
    user is stored and no exercise was added. *)
Definition register_all_or_nothing (h : string -> string)
    (user : UserCreate.t) (fate : list bool) (db : DB) : Prop :=
  let after := serve h (Register user) fate db in
  (exists u, In u (users after)
             /\ User.email u = UserCreate.email user
             /\ owns_six_defaults (User.id u) after)
  \/ ((forall u, In u (users after) -> User.email u <> UserCreate.email user)
      /\ exercises after = exercises db).

(** ** Category links *)

(** Every exercise with a category references a category of its own
    owner. *)
Definition category_links_owned (db : DB) : Prop :=
  forall e cid,
    In e (exercises db) -> Exercise.category_id e = Some cid ->
    exists c, In c (categories db)
              /\ Category.id c = cid
              /\ Category.user_id c = Exercise.user_id e.

(** The [category_id] of a request body is null or a category of [u]. *)
Definition owned_or_null (category_id : option Z) (u : User.t) (db : DB)
  : Prop :=
  match category_id with
  | None => True
  | Some cid =>
      exists c, In c (categories db)
                /\ Category.id c = cid
                /\ Category.user_id c = User.id u
  end.

(** The calls that set a [category_id] name a category of the caller. *)
Definition names_own_category (c : call) (db : DB) : Prop :=
  match c with
  | CreateExercise exercise u =>
      owned_or_null (ExerciseCreate.category_id exercise) u db
  | UpdateExercise _ exercise_update u =>
      owned_or_null (ExerciseUpdate.category_id exercise_update) u db
  | _ => True
  end.

(** ** Stored records *)

(** After a call, every stored record is a record stored before or one
    that the call created. *)
Definition records_kept_whole (h : string -> string) (c : call)
    (fate : list bool) (db : DB) : Prop :=
  forall r', In r' (workout_records (serve h c fate db)) ->
    In r' (workout_records db)
    \/ exists record u, c = CreateRecord record u.

(** ** Statistics, as the specification reads them *)

(** A nullable float read as a number: NULL counts as 0.0. *)
Definition null_as_zero (x : option Py.float) : Py.float :=
  match x with
  | Some f => f
  | None => S754_zero false
  end.

(** The sum of floats, from left to right, starting from 0.0. *)
Definition float_sum (fs : list (option Py.float)) : Py.float :=
  fold_left Py.fadd (map null_as_zero fs) (S754_zero false).

(** The compensated sum of floats (Neumaier's), from left to right,
    starting from 0.0: next to the running total [f] runs the sum [c] of
    the rounding errors of the additions, and [c] is added to the total at
    the end unless it is zero, an infinity or a NaN. *)
Fixpoint compensated_from (f c : Py.float) (xs : list Py.float) : Py.float :=
  match xs with
  | [] => if Py.truthy c && Py.is_finite c then Py.fadd f c else f
  | x :: xs' =>
      let t := Py.fadd f x in
      let c' := if Py.fle (Py.fabs x) (Py.fabs f)
                then Py.fadd c (Py.fadd (Py.fsub f t) x)
                else Py.fadd c (Py.fadd (Py.fsub x t) f) in
      compensated_from t c' xs'
  end.

Definition compensated_sum (fs : list (option Py.float)) : Py.float :=
  compensated_from (S754_zero false) (S754_zero false) (map null_as_zero fs).

(** The sum of the volumes [fs] as the interpreter [python] adds floats. *)
Definition volume_sum (python : Py.cpython) (fs : list (option Py.float))
  : Py.float :=
  match python with
  | Py.Before312 => float_sum fs
  | Py.From312 => compensated_sum fs
  end.

(** A float zero, of either sign. *)
Definition is_zero (f : Py.float) : Prop :=
  match f with S754_zero _ => True | _ => False end.






(** Two floats that are equal or both zero. *)
Definition same_up_to_zero (a b : Py.float) : Prop :=
  a = b \/ (is_zero a /\ is_zero b).

(** A running total of [sum] and the float sum agree up to the sign of a
    zero. *)
Definition agree (x : Py.num) (f : Py.float) : Prop :=
  match x with
  | Py.Int n => n = 0 /\ is_zero f
  | Py.Float g => g = f \/ (is_zero g /\ is_zero f)
  end.





(** ** [backend/database.py]: the database URL *)

From Stdlib Require DecimalString.

Module Database.

(** [s.startswith(p)] *)
Definition startswith (s p : string) : bool := String.prefix p s.

(** [s[n:]] *)
Fixpoint skip (n : nat) (s : string) : string :=
  match n, s with
  | O, _ => s
  | S n', String _ s' => skip n' s'
  | S _, EmptyString => EmptyString
  end.

(** [s.replace(old, new, 1)]: the leftmost occurrence of [old] in [s] is
    replaced by [new]; [s] is returned as it is when there is none. *)
Fixpoint replace_first (old new s : string) : string :=
  if String.prefix old s
  then (new ++ skip (String.length old) s)%string
  else match s with
       | EmptyString => EmptyString
       | String c s' => String c (replace_first old new s')
       end.

(** [os.getenv(name, default)], given the value of the variable if it is
    set. *)
Definition getenv (value : option string) (default : string) : string :=
  match value with
  | Some v => v
  | None => default
  end.

(** The module-level [DATABASE_URL], from the environment variable of the
    same name. *)
Definition DATABASE_URL (env : option string) : string :=
  let url := getenv env "sqlite:///./workout_tracker.db" in
  if startswith url "postgres://"
  then replace_first "postgres://" "postgresql://" url
  else url.

(** The [connect_args] that [create_engine] is called with; none when the
    keyword is not passed. *)
Definition connect_args (env : option string) : list (string * bool) :=
  if startswith (DATABASE_URL env) "sqlite"
  then [("check_same_thread", false)]
  else [].

End Database.

(** ** [login] *)

Module OAuth2PasswordRequestForm.
Record t := mk { username : string; password : string }.
End OAuth2PasswordRequestForm.

Module Token.
Record t := mk { access_token : string; token_type : string }.
End Token.

(** The [HTTPException] that [login] raises carries headers. *)
Module Unauthorized.
Record t := mk
  { status_code : Z; detail : string; headers : list (string * string) }.
End Unauthorized.

(** [str(n)] for an int. *)
Definition str (n : Z) : string :=
  DecimalString.NilZero.string_of_int (Z.to_int n).

Section Login.

(** [auth.verify_password], [auth.create_access_token], applied to the
    subject of the token and the minutes it lasts, and
    [auth.ACCESS_TOKEN_EXPIRE_MINUTES]: the module [auth] is outside the
    embedded files. *)
Variable verify_password : string -> string -> bool.
Variable create_access_token : string -> Z -> string.
Variable ACCESS_TOKEN_EXPIRE_MINUTES : Z.

(** [login] only reads: it runs one query on the stored users. *)
Definition login (form_data : OAuth2PasswordRequestForm.t) (db : DB)
  : Unauthorized.t + Token.t :=
  let user :=
    hd_error (filter (fun u => String.eqb (User.email u)
                                 (OAuth2PasswordRequestForm.username form_data))
                (users db)) in
  match user with
  | None =>
      inl (Unauthorized.mk 401
             "メールアドレスまたはパスワードが間違っています"
             [("WWW-Authenticate", "Bearer")])
  | Some user =>
      if negb (verify_password (OAuth2PasswordRequestForm.password form_data)
                 (User.hashed_password user))
      then inl (Unauthorized.mk 401
                  "メールアドレスまたはパスワードが間違っています"
                  [("WWW-Authenticate", "Bearer")])
      else inr (Token.mk
                  (create_access_token (str (User.id user))
                     ACCESS_TOKEN_EXPIRE_MINUTES)
                  "bearer")
  end.

End Login.

(** ** Records and their exercises *)

(** Every record with an exercise references a stored exercise of its own
    owner. *)
Definition record_links_owned (db : DB) : Prop :=
  forall r eid,
    In r (workout_records db) -> WorkoutRecord.exercise_id r = Some eid ->
    exists e, In e (exercises db)
              /\ Exercise.id e = eid
              /\ Exercise.user_id e = WorkoutRecord.user_id r.

(** The emails of the stored users are pairwise distinct. *)
Definition emails_unique (db : DB) : Prop :=
  NoDup (map User.email (users db)).
Unset Implicit Arguments.
Local Open Scope list_scope.

(** ** Lists and keys *)

Lemma hd_error_filter_none {A} (p : A -> bool) (l : list A) :
  (forall x, In x l -> p x = false) -> hd_error (filter p l) = None.
Proof.
  induction l as [|a l IH]; intros H; simpl; [reflexivity|].
  rewrite (H a (or_introl eq_refl)). apply IH.
  intros x Hx. apply H. now right.
Qed.

Lemma hd_error_filter_some {A} (p : A -> bool) (l : list A) x :
  In x l -> p x = true ->
  exists y, hd_error (filter p l) = Some y /\ In y l /\ p y = true.
Proof.
  induction l as [|a l IH]; intros Hin Hp; [contradiction|].
  simpl. destruct (p a) eqn:Ea.
  - exists a. simpl. auto.
  - destruct Hin as [->|Hin]; [congruence|].
    destruct (IH Hin Hp) as (y & Hy & Hyl & Hpy).
    exists y. auto.
Qed.

Lemma hd_error_filter_inv {A} (p : A -> bool) (l : list A) y :
  hd_error (filter p l) = Some y -> In y l /\ p y = true.
Proof.
  intros H. apply filter_In.
  destruct (filter p l) as [|z t]; simpl in H; [discriminate|].
  injection H as ->. now left.
Qed.

Lemma NoDup_map_inj {A B} (f : A -> B) (l : list A) a b :
  NoDup (map f l) -> In a l -> In b l -> f a = f b -> a = b.
Proof.
  induction l as [|x l IH]; simpl; intros Hnd Ha Hb Hf; [contradiction|].
  inversion Hnd as [|? ? Hx Hl]; subst.
  destruct Ha as [->|Ha], Hb as [->|Hb]; auto.
  - exfalso. apply Hx. rewrite Hf. now apply in_map.
  - exfalso. apply Hx. rewrite <- Hf. now apply in_map.
Qed.

Lemma fold_max_ge (ids : list Z) x :
  In x ids -> x <= fold_right Z.max 0 ids.
Proof.
  induction ids as [|a ids IH]; simpl; [contradiction|].
  intros [->|H]; [lia|]. specialize (IH H). lia.
Qed.

Lemma fresh_id_above (ids : list Z) x : In x ids -> x < fresh_id ids.
Proof. intros H. apply fold_max_ge in H. unfold fresh_id. lia. Qed.

Lemma fresh_id_new (ids : list Z) : ~ In (fresh_id ids) ids.
Proof. intros H. apply fresh_id_above in H. lia. Qed.

Lemma NoDup_snoc_fresh (ids : list Z) : NoDup ids -> NoDup (ids ++ [fresh_id ids]).
Proof.
  intros H. apply NoDup_app; [assumption|repeat constructor; intros []|].
  intros x Hx [<-|[]]. now apply (fresh_id_new ids).
Qed.

Lemma NoDup_map_filter {A} (f : A -> Z) (p : A -> bool) (l : list A) :
  NoDup (map f l) -> NoDup (map f (filter p l)).
Proof.
  induction l as [|a l IH]; simpl; intros H; [constructor|].
  inversion H as [|? ? Ha Hl]; subst.
  destruct (p a); simpl; auto.
  constructor; auto.
  intros Hin. apply Ha. apply in_map_iff in Hin as (y & <- & Hy).
  apply in_map. apply filter_In in Hy. tauto.
Qed.

Lemma filter_nil_of {A} (p : A -> bool) (l : list A) :
  (forall x, In x l -> p x = false) -> filter p l = [].
Proof.
  induction l as [|a l IH]; intros H; simpl; [reflexivity|].
  rewrite (H a (or_introl eq_refl)). apply IH. intros x Hx. apply H. now right.
Qed.

Lemma filter_all_of {A} (p : A -> bool) (l : list A) :
  (forall x, In x l -> p x = true) -> filter p l = l.
Proof.
  induction l as [|a l IH]; intros H; simpl; [reflexivity|].
  rewrite (H a (or_introl eq_refl)). f_equal. apply IH.
  intros x Hx. apply H. now right.
Qed.

(** ** What each request returns and stores *)

Ltac run_handler :=
  unfold request, bind, ret, raise, lift, query_first, query_all, commit,
    update_txn, add_user, add_category, add_exercise, add_record,
    set_category_id, delete_category_row, delete_exercise_row,
    delete_record_row, bind_int, refresh_record, commits; simpl.

Lemma request_register_duplicate h user fate db :
  (exists u, In u (users db) /\ User.email u = UserCreate.email user) ->
  request (register h user) fate db =
  (inl (Py.HTTPException 400 "このメールアドレスは既に使用されています"), db).
Proof.
  intros (u & Hu & He).
  destruct (hd_error_filter_some
              (fun u => String.eqb (User.email u) (UserCreate.email user))
              (users db) u Hu) as (y & Hy & _).
  { rewrite He. apply String.eqb_refl. }
  unfold register. run_handler. rewrite Hy. reflexivity.
Qed.

Lemma request_register_new h user fate db :
  (forall u, In u (users db) -> User.email u <> UserCreate.email user) ->
  let new_user := User.mk (fresh_id (map User.id (users db)))
                    (UserCreate.email user) (h (UserCreate.password user)) in
  let db1 := mkDB (users db ++ [new_user]) (categories db) (exercises db)
               (workout_records db) in
  let db2 := mkDB (users db ++ [new_user]) (categories db)
               (seed default_exercises (User.id new_user) (exercises db))
               (workout_records db) in
  request (register h user) fate db =
  if commits fate
  then if commits (tl fate) then (inr new_user, db2)
       else (inl Py.OperationalError, db1)
  else (inl Py.OperationalError, db).
Proof.
  intros Hnew new_user db1 db2.
  unfold register. run_handler.
  rewrite hd_error_filter_none.
  2:{ intros u Hu. apply String.eqb_neq. now apply Hnew. }
  destruct db as [us cs es rs]; simpl in *.
  destruct fate as [|[] [|[] fate]]; reflexivity.
Qed.

Lemma request_create_category category u fate db :
  let c := Category.mk (fresh_id (map Category.id (categories db)))
             (CategoryCreate.name category) (User.id u) in
  request (create_category category u) fate db =
  if commits fate
  then (inr c, mkDB (users db) (categories db ++ [c]) (exercises db)
                 (workout_records db))
  else (inl Py.OperationalError, db).
Proof.
  unfold create_category. run_handler.
  destruct db, fate as [|[] fate]; reflexivity.
Qed.

Lemma request_create_exercise exercise u fate db :
  let e := Exercise.mk (fresh_id (map Exercise.id (exercises db)))
             (ExerciseCreate.name exercise)
             (ExerciseCreate.category_id exercise) (User.id u) in
  request (create_exercise exercise u) fate db =
  if commits fate
  then (inr e, mkDB (users db) (categories db) (exercises db ++ [e])
                 (workout_records db))
  else (inl Py.OperationalError, db).
Proof.
  unfold create_exercise. run_handler.
  destruct db, fate as [|[] fate]; reflexivity.
Qed.

Lemma for_each_unlink (xs : list Exercise.t) (s : Session) :
  for_each xs (fun ex => _ <- set_category_id ex None ;; ret tt) s =
  (inr tt,
   mkSession (stored s)
     (mkDB (users (txn s)) (categories (txn s))
        (unlink_all xs (exercises (txn s))) (workout_records (txn s)))
     (outcomes s)).
Proof.
  revert s. induction xs as [|x xs IH]; intros s.
  - destruct s as [st [us cs es rs] fate]. reflexivity.
  - simpl. unfold bind at 1. unfold bind at 1.
    unfold set_category_id at 1. unfold ret at 1. rewrite IH. reflexivity.
Qed.

Lemma unlink_exercises_run cid (s : Session) :
  unlink_exercises cid s =
  (inr tt,
   mkSession (stored s)
     (mkDB (users (txn s)) (categories (txn s))
        (unlink_all
           (filter (fun e => option_Z_eqb (Exercise.category_id e) (Some cid))
              (exercises (txn s)))
           (exercises (txn s)))
        (workout_records (txn s)))
     (outcomes s)).
Proof.
  unfold unlink_exercises. unfold bind at 1. unfold query_all at 1.
  now rewrite for_each_unlink.
Qed.

Lemma request_delete_category_found cid u fate db c :
  hd_error (filter (fun c => (Category.id c =? cid)
                             && (Category.user_id c =? User.id u))
              (categories db)) = Some c ->
  request (delete_category cid u) fate db =
  if commits fate
  then (inr "削除しました",
        mkDB (users db)
          (filter (fun x => negb (Category.id x =? Category.id c)) (categories db))
          (map (clear_category (Category.id c))
             (unlink_all
                (filter (fun e => option_Z_eqb (Exercise.category_id e) (Some cid))
                   (exercises db))
                (exercises db)))
          (workout_records db))
  else (inl Py.OperationalError, db).
Proof.
  intros Hc. unfold delete_category, request.
  unfold bind at 1. unfold query_first at 1. simpl. rewrite Hc.
  unfold bind at 1. rewrite unlink_exercises_run. simpl.
  run_handler. destruct fate as [|[] fate]; reflexivity.
Qed.

Lemma request_delete_category_missing cid u fate db :
  (forall c, In c (categories db) -> Category.id c = cid ->
     Category.user_id c <> User.id u) ->
  request (delete_category cid u) fate db =
  (inl (Py.HTTPException 404 "カテゴリが見つかりません"), db).
Proof.
  intros H. unfold delete_category. run_handler.
  rewrite hd_error_filter_none; [reflexivity|].
  intros c Hc. apply andb_false_iff.
  destruct (Category.id c =? cid) eqn:E; [right|now left].
  apply Z.eqb_eq in E. apply Z.eqb_neq. now apply H.
Qed.

Lemma owner_filter_false {A} (id user_id : A -> Z) (l : list A) (k uid : Z) :
  (forall x, In x l -> id x = k -> user_id x <> uid) ->
  forall x, In x l -> (id x =? k) && (user_id x =? uid) = false.
Proof.
  intros H x Hx. apply andb_false_iff.
  destruct (id x =? k) eqn:E; [right|now left].
  apply Z.eqb_eq in E. apply Z.eqb_neq. now apply H.
Qed.

Lemma request_update_exercise_found eid upd u fate db e :
  hd_error (filter (fun e => (Exercise.id e =? eid)
                             && (Exercise.user_id e =? User.id u))
              (exercises db)) = Some e ->
  request (update_exercise eid upd u) fate db =
  if commits fate
  then (inr (Exercise.with_category_id (ExerciseUpdate.category_id upd) e),
        mkDB (users db) (categories db)
          (map (assign_category (Exercise.id e) (ExerciseUpdate.category_id upd))
             (exercises db))
          (workout_records db))
  else (inl Py.OperationalError, db).
Proof.
  intros He. unfold update_exercise. run_handler. rewrite He.
  destruct fate as [|[] fate]; reflexivity.
Qed.

Lemma request_update_exercise_missing eid upd u fate db :
  (forall e, In e (exercises db) -> Exercise.id e = eid ->
     Exercise.user_id e <> User.id u) ->
  request (update_exercise eid upd u) fate db =
  (inl (Py.HTTPException 404 "エクササイズが見つかりません"), db).
Proof.
  intros H. unfold update_exercise. run_handler.
  rewrite hd_error_filter_none; [reflexivity|].
  now apply owner_filter_false.
Qed.

Lemma request_delete_exercise_found eid u fate db e :
  hd_error (filter (fun e => (Exercise.id e =? eid)
                             && (Exercise.user_id e =? User.id u))
              (exercises db)) = Some e ->
  request (delete_exercise eid u) fate db =
  if commits fate
  then (inr "削除しました",
        mkDB (users db) (categories db)
          (filter (fun x => negb (Exercise.id x =? Exercise.id e)) (exercises db))
          (map (clear_exercise (Exercise.id e)) (workout_records db)))
  else (inl Py.OperationalError, db).
Proof.
  intros He. unfold delete_exercise. run_handler. rewrite He.
  destruct fate as [|[] fate]; reflexivity.
Qed.

Lemma request_delete_exercise_missing eid u fate db :
  (forall e, In e (exercises db) -> Exercise.id e = eid ->
     Exercise.user_id e <> User.id u) ->
  request (delete_exercise eid u) fate db =
  (inl (Py.HTTPException 404 "エクササイズが見つかりません"), db).
Proof.
  intros H. unfold delete_exercise. run_handler.
  rewrite hd_error_filter_none; [reflexivity|].
  now apply owner_filter_false.
Qed.

Lemma request_delete_record_found rid u fate db r :
  hd_error (filter (fun r => (WorkoutRecord.id r =? rid)
                             && (WorkoutRecord.user_id r =? User.id u))
              (workout_records db)) = Some r ->
  request (delete_record rid u) fate db =
  if commits fate
  then (inr "削除しました",
        mkDB (users db) (categories db) (exercises db)
          (filter (fun x => negb (WorkoutRecord.id x =? WorkoutRecord.id r))
             (workout_records db)))
  else (inl Py.OperationalError, db).
Proof.
  intros Hr. unfold delete_record. run_handler. rewrite Hr.
  destruct fate as [|[] fate]; reflexivity.
Qed.

Lemma request_delete_record_missing rid u fate db :
  (forall r, In r (workout_records db) -> WorkoutRecord.id r = rid ->
     WorkoutRecord.user_id r <> User.id u) ->
  request (delete_record rid u) fate db =
  (inl (Py.HTTPException 404 "記録が見つかりません"), db).
Proof.
  intros H. unfold delete_record. run_handler.
  rewrite hd_error_filter_none; [reflexivity|].
  now apply owner_filter_false.
Qed.

(** The row read back under the key that was just given out. *)
Lemma refresh_finds_new_row (rs : list WorkoutRecord.t) (row : WorkoutRecord.t) :
  WorkoutRecord.id row = fresh_id (map WorkoutRecord.id rs) ->
  hd_error (filter (fun r => WorkoutRecord.id r =? WorkoutRecord.id row)
              (rs ++ [row]))
  = Some row.
Proof.
  intros Hid. rewrite filter_app.
  rewrite (filter_nil_of _ rs).
  - simpl. now rewrite Z.eqb_refl.
  - intros r Hr. apply Z.eqb_neq. rewrite Hid.
    pose proof (fresh_id_above (map WorkoutRecord.id rs) (WorkoutRecord.id r)
                  (in_map WorkoutRecord.id rs r Hr)).
    lia.
Qed.

Lemma request_create_record_unbound record u fate db :
  fits_int64 (RecordCreate.exercise_id record) = false ->
  request (create_record record u) fate db = (inl Py.OverflowError, db).
Proof.
  intros Hfit. unfold create_record. run_handler. now rewrite Hfit.
Qed.

Lemma request_create_record_found record u fate db e :
  fits_int64 (RecordCreate.exercise_id record) = true ->
  hd_error (filter (fun e => (Exercise.id e =? RecordCreate.exercise_id record)
                             && (Exercise.user_id e =? User.id u))
              (exercises db)) = Some e ->
  request (create_record record u) fate db =
  match Py.product (RecordCreate.weight record) (RecordCreate.reps record)
          (RecordCreate.sets record) with
  | inl err => (inl err, db)
  | inr volume =>
      if fits_int64 (RecordCreate.reps record)
         && fits_int64 (RecordCreate.sets record)
      then if commits fate
           then (inr (new_record_row record u e volume db),
                 mkDB (users db) (categories db) (exercises db)
                   (workout_records db ++ [new_record_row record u e volume db]))
           else (inl Py.OperationalError, db)
      else (inl Py.OverflowError, db)
  end.
Proof.
  intros Hfit He. unfold create_record.
  unfold request, bind, bind_int, query_first, lift, raise.
  rewrite Hfit. cbn [txn stored outcomes]. rewrite He.
  destruct (Py.product (RecordCreate.weight record) (RecordCreate.reps record)
              (RecordCreate.sets record)) as [err|v]; [reflexivity|].
  unfold add_record. cbn [txn stored outcomes].
  destruct (fits_int64 (RecordCreate.reps record)
            && fits_int64 (RecordCreate.sets record)); [|reflexivity].
  pose proof (refresh_finds_new_row (workout_records db)
                (new_record_row record u e v db) eq_refl) as Hrow.
  unfold commit, refresh_record, ret, commits.
  destruct fate as [|[] fate]; cbn [outcomes txn stored workout_records hd tl];
    try reflexivity.
  - unfold new_record_row in Hrow |- *. cbn [WorkoutRecord.id] in Hrow |- *.
    rewrite Hrow. reflexivity.
  - unfold new_record_row in Hrow |- *. cbn [WorkoutRecord.id] in Hrow |- *.
    rewrite Hrow. reflexivity.
Qed.

Lemma request_create_record_missing record u fate db :
  fits_int64 (RecordCreate.exercise_id record) = true ->
  (forall e, In e (exercises db) ->
     Exercise.id e = RecordCreate.exercise_id record ->
     Exercise.user_id e <> User.id u) ->
  request (create_record record u) fate db =
  (inl (Py.HTTPException 404 "エクササイズが見つかりません"), db).
Proof.
  intros Hfit H. unfold create_record. run_handler. rewrite Hfit.
  rewrite hd_error_filter_none; [reflexivity|].
  now apply owner_filter_false.
Qed.

Lemma request_get_categories u fate db :
  request (get_categories u) fate db =
  (inr (filter (fun c => Category.user_id c =? User.id u) (categories db)), db).
Proof. reflexivity. Qed.

Lemma request_get_exercises u fate db :
  request (get_exercises u) fate db =
  (inr (filter (fun e => Exercise.user_id e =? User.id u) (exercises db)), db).
Proof. reflexivity. Qed.

Lemma request_get_records u fate db :
  request (get_records u) fate db =
  (inr (filter (fun r => WorkoutRecord.user_id r =? User.id u)
          (workout_records db)), db).
Proof. reflexivity. Qed.

Lemma request_get_stats_db v u fate db :
  snd (request (get_stats v u) fate db) = db.
Proof.
  unfold get_stats. run_handler.
  destruct (Py.sum _ _) as [err|t]; [reflexivity|].
  destruct (Py.int t); reflexivity.
Qed.

Lemma hd_error_filter_none_inv {A} (p : A -> bool) (l : list A) :
  hd_error (filter p l) = None -> forall x, In x l -> p x = false.
Proof.
  intros H x Hx. destruct (p x) eqn:E; [|reflexivity].
  destruct (hd_error_filter_some p l x Hx E) as (y & Hy & _). congruence.
Qed.



(** ** Duplicate registration *)

(** C6: registering with an email that a stored user already has fails with
    the duplicate-email error, an HTTP 400, and leaves the stored database as
    it was: no user row and no exercise row is inserted. *)
Theorem register_duplicate_email_rejected :
  forall (h : string -> string) user fate db,
    (exists u, In u (users db) /\ User.email u = UserCreate.email user) ->
    request (register h user) fate db =
      (inl (Py.HTTPException 400 "このメールアドレスは既に使用されています"), db)
    /\ users (serve h (Register user) fate db) = users db
    /\ exercises (serve h (Register user) fate db) = exercises db
    /\ serve h (Register user) fate db = db.
Proof.
  intros h user fate db H. simpl.
  rewrite (request_register_duplicate h user fate db H). auto.
Qed.

(** ** Record creation and the exercise lookup *)



Lemma register_duplicate_email_rejected_witness :
  (exists u, In u (users Example.db2)
             /\ User.email u = UserCreate.email Example.alice_form)
  /\ request (register Example.hash Example.alice_form) [] Example.db2 =
     (inl (Py.HTTPException 400 "このメールアドレスは既に使用されています"),
      Example.db2).
Proof.
  assert (H : exists u, In u (users Example.db2)
                        /\ User.email u = UserCreate.email Example.alice_form).
  { exists Example.alice. split; [simpl; auto|reflexivity]. }
  split; [exact H|].
  exact (proj1 (register_duplicate_email_rejected Example.hash
                  Example.alice_form [] Example.db2 H)).
Defined.

(** ** Ownership as a filter *)

Lemma owned_by_other {A} (id user_id : A -> Z) (l : list A) (a : A) (uid : Z) :
  NoDup (map id l) -> In a l -> user_id a <> uid ->
  forall x, In x l -> id x = id a -> user_id x <> uid.
Proof.
  intros Hnd Ha Hu x Hx Hid.
  now rewrite (NoDup_map_inj id l x a Hnd Hx Ha Hid).
Qed.

Lemma absent_key {A} (id user_id : A -> Z) (l : list A) (k uid : Z) :
  ~ In k (map id l) ->
  forall x, In x l -> id x = k -> user_id x <> uid.
Proof.
  intros Hk x Hx Hid. exfalso. apply Hk. rewrite <- Hid. now apply in_map.
Qed.

Ltac concrete_nodup :=
  repeat (constructor; [simpl; intuition discriminate|]); constructor.

Lemma example_db6_pk_unique : pk_unique Example.db6.
Proof. repeat split; simpl; concrete_nodup. Qed.

(** ** Deleting a category *)

Lemma unlink_all_pointwise (xs es : list Exercise.t) :
  unlink_all xs es =
  map (fun e => if existsb (fun x => Exercise.id e =? Exercise.id x) xs
                then Exercise.with_category_id None e else e) es.
Proof.
  unfold unlink_all. revert es.
  induction xs as [|x xs IH]; intros es; simpl.
  - symmetry. apply map_id.
  - rewrite IH, map_map. apply map_ext. intros e.
    unfold assign_category. destruct (Exercise.id e =? Exercise.id x) eqn:E; simpl.
    + destruct (existsb _ xs); reflexivity.
    + reflexivity.
Qed.

Lemma clear_category_unlinked cid e :
  clear_category cid (Exercise.with_category_id None e)
  = Exercise.with_category_id None e.
Proof. reflexivity. Qed.

Lemma clear_after_unlink_loop cid (es : list Exercise.t) :
  NoDup (map Exercise.id es) ->
  map (clear_category cid)
    (unlink_all
       (filter (fun e => option_Z_eqb (Exercise.category_id e) (Some cid)) es)
       es)
  = map (clear_category cid) es.
Proof.
  intros Hnd. rewrite unlink_all_pointwise, map_map.
  apply map_ext_in. intros e He.
  destruct (existsb _ _) eqn:Ex; [|reflexivity].
  apply existsb_exists in Ex as (x & Hx & Hid).
  apply filter_In in Hx as [Hx Hcat]. apply Z.eqb_eq in Hid.
  rewrite (NoDup_map_inj Exercise.id es e x Hnd He Hx Hid).
  rewrite clear_category_unlinked.
  unfold clear_category. now rewrite Hcat.
Qed.

Lemma request_delete_category_owned db u c fate :
  pk_unique db -> In c (categories db) -> Category.user_id c = User.id u ->
  request (delete_category (Category.id c) u) fate db =
  if commits fate
  then (inr "削除しました", without_category (Category.id c) db)
  else (inl Py.OperationalError, db).
Proof.
  intros (_ & _ & He & _) Hc Ho.
  destruct (hd_error_filter_some
              (fun x => (Category.id x =? Category.id c)
                        && (Category.user_id x =? User.id u))
              (categories db) c Hc) as (c' & Hq & _ & Hp).
  { rewrite Ho, !Z.eqb_refl. reflexivity. }
  apply andb_true_iff in Hp as [Hid _]. apply Z.eqb_eq in Hid.
  rewrite (request_delete_category_found _ _ fate _ _ Hq).
  rewrite Hid, (clear_after_unlink_loop (Category.id c) (exercises db) He).
  reflexivity.
Qed.

Lemma option_Z_eqb_eq a b : option_Z_eqb a b = true <-> a = b.
Proof.
  destruct a, b; simpl; try (split; congruence).
  rewrite Z.eqb_eq. split; congruence.
Qed.

Lemma cleared_not_linked cid e :
  Exercise.category_id (clear_category cid e) <> Some cid.
Proof.
  unfold clear_category.
  destruct (option_Z_eqb (Exercise.category_id e) (Some cid)) eqn:E.
  - simpl. discriminate.
  - intros H. apply option_Z_eqb_eq in H. congruence.
Qed.

(** C2: when a user deletes a category of theirs, the request either
    commits, and then the category row is gone, absent from what
    [get_categories] lists, every exercise that referenced it is kept with
    [category_id] null and no exercise is removed, or the commit is refused,
    and then nothing at all has changed.  No state in between is stored. *)
Theorem delete_category_unlinks_atomically :
  forall db u c fate,
    pk_unique db ->
    In c (categories db) ->
    Category.user_id c = User.id u ->
    let cid := Category.id c in
    let after := without_category cid db in
    request (delete_category cid u) fate db
    = (if commits fate then (inr "削除しました", after)
       else (inl Py.OperationalError, db))
    /\ (forall e, In e (exercises db) ->
          Exercise.user_id e = User.id u ->
          Exercise.category_id e = Some cid ->
          In (Exercise.with_category_id None e) (exercises after))
    /\ (forall e, In e (exercises after) -> Exercise.category_id e <> Some cid)
    /\ map Exercise.id (exercises after) = map Exercise.id (exercises db)
    /\ (forall x, In x (categories after) -> Category.id x <> cid)
    /\ (forall fate', exists listed,
          request (get_categories u) fate' after = (inr listed, after)
          /\ ~ In cid (map Category.id listed)).
Proof.
  intros db u c fate Hpk Hc Ho cid after.
  split; [now apply request_delete_category_owned|].
  split.
  { intros e He _ Hcat. unfold after, without_category; simpl.
    apply in_map_iff. exists e. split; [|assumption].
    unfold clear_category. rewrite Hcat. simpl. now rewrite Z.eqb_refl. }
  split.
  { intros e He. unfold after, without_category in He; simpl in He.
    apply in_map_iff in He as (e0 & <- & _). apply cleared_not_linked. }
  split.
  { unfold after, without_category; simpl. rewrite map_map.
    apply map_ext. intros e. unfold clear_category.
    destruct (option_Z_eqb _ _); reflexivity. }
  split.
  { intros x Hx. unfold after, without_category in Hx; simpl in Hx.
    apply filter_In in Hx as [_ Hx]. apply negb_true_iff in Hx.
    now apply Z.eqb_neq. }
  intros fate'. eexists. split; [apply request_get_categories|].
  intros Hin. apply in_map_iff in Hin as (x & Hid & Hx).
  apply filter_In in Hx as [Hx _].
  unfold after, without_category in Hx; simpl in Hx.
  apply filter_In in Hx as [_ Hx]. apply negb_true_iff in Hx.
  apply Z.eqb_neq in Hx. contradiction.
Qed.

Lemma delete_category_unlinks_atomically_witness :
  pk_unique Example.db6
  /\ request (delete_category 1 Example.bob) [] Example.db6
     = (inr "削除しました", without_category 1 Example.db6)
  /\ request (delete_category 1 Example.bob) [false] Example.db6
     = (inl Py.OperationalError, Example.db6).
Proof.
  assert (Hc : In (Category.mk 1 "legs" 2) (categories Example.db6))
    by (simpl; auto).
  split; [exact example_db6_pk_unique|]. split.
  - exact (proj1 (@delete_category_unlinks_atomically Example.db6 Example.bob
                    (Category.mk 1 "legs" 2) [] example_db6_pk_unique Hc eq_refl)).
  - exact (proj1 (@delete_category_unlinks_atomically Example.db6 Example.bob
                    (Category.mk 1 "legs" 2) [false] example_db6_pk_unique Hc
                    eq_refl)).
Defined.

Lemma unlink_loop_clears cid (es : list Exercise.t) :
  NoDup (map Exercise.id es) ->
  unlink_all
    (filter (fun e => option_Z_eqb (Exercise.category_id e) (Some cid)) es) es
  = map (fun e => if option_Z_eqb (Exercise.category_id e) (Some cid)
                  then Exercise.with_category_id None e else e) es.
Proof.
  intros Hnd. rewrite unlink_all_pointwise.
  apply map_ext_in. intros e He.
  destruct (option_Z_eqb (Exercise.category_id e) (Some cid)) eqn:E.
  - replace (existsb _ _) with true; [reflexivity|].
    symmetry. apply existsb_exists. exists e. split.
    + apply filter_In. auto.
    + apply Z.eqb_refl.
  - destruct (existsb _ _) eqn:Ex; [|reflexivity].
    apply existsb_exists in Ex as (x & Hx & Hid).
    apply filter_In in Hx as [Hx Hcat]. apply Z.eqb_eq in Hid.
    rewrite (NoDup_map_inj Exercise.id es e x Hnd He Hx Hid) in E.
    congruence.
Qed.

(** C10: the unlink step of [delete_category] selects the exercises by
    [category_id] alone.  When the caller deletes a category of theirs, the
    step, run on the session that the request has opened and before the
    category is deleted, sets [category_id] to null on every exercise that
    references the category id, whoever owns the exercise, and changes
    nothing else: the category is still in the transaction and nothing is
    stored yet.  The handler is that step followed by the delete and the
    commit, and once the commit has gone through the same exercises are
    stored with [category_id] null. *)
Theorem delete_category_unlinks_every_owner :
  forall db u c fate,
    pk_unique db ->
    In c (categories db) ->
    Category.user_id c = User.id u ->
    let cid := Category.id c in
    exists unlinked,
      unlink_exercises cid (mkSession db db fate) = (inr tt, unlinked)
      /\ stored unlinked = db
      /\ outcomes unlinked = fate
      /\ users (txn unlinked) = users db
      /\ categories (txn unlinked) = categories db
      /\ workout_records (txn unlinked) = workout_records db
      /\ exercises (txn unlinked)
         = map (fun e => if option_Z_eqb (Exercise.category_id e) (Some cid)
                         then Exercise.with_category_id None e else e)
             (exercises db)
      /\ (forall e, In e (exercises db) ->
            Exercise.category_id e = Some cid ->
            In (Exercise.with_category_id None e) (exercises (txn unlinked)))
      /\ (forall e, In e (exercises (txn unlinked)) ->
            Exercise.category_id e <> Some cid)
      /\ request (delete_category cid u) fate db
         = (let (r, s) := (delete_category_row c ;; commit ;;
                           ret "削除しました") unlinked in
            (r, stored s))
      /\ (commits fate = true ->
          forall e, In e (exercises db) ->
            Exercise.category_id e = Some cid ->
            In (Exercise.with_category_id None e)
              (exercises (snd (request (delete_category cid u) fate db)))).
Proof.
  intros db u c fate Hpk Hc Ho cid.
  pose proof Hpk as (_ & Hndc & Hnde & _).
  pose proof (unlink_exercises_run cid (mkSession db db fate)) as Hrun.
  cbn [stored txn outcomes] in Hrun.
  rewrite (unlink_loop_clears cid (exercises db) Hnde) in Hrun.
  eexists. split; [exact Hrun|]. cbn [stored txn outcomes].
  cbn [users categories exercises workout_records].
  split; [reflexivity|]. split; [reflexivity|]. split; [reflexivity|].
  split; [reflexivity|]. split; [reflexivity|]. split; [reflexivity|].
  split.
  { intros e He Hcat. apply in_map_iff. exists e. split; [|exact He].
    rewrite Hcat. simpl. now rewrite Z.eqb_refl. }
  split.
  { intros e' He'. apply in_map_iff in He' as (e & <- & _).
    destruct (option_Z_eqb (Exercise.category_id e) (Some cid)) eqn:E.
    - simpl. discriminate.
    - intros H. apply option_Z_eqb_eq in H. congruence. }
  split.
  { destruct (hd_error_filter_some
                (fun x => (Category.id x =? cid)
                          && (Category.user_id x =? User.id u))
                (categories db) c Hc) as (c' & Hq & Hc' & Hp).
    { unfold cid. rewrite Ho, !Z.eqb_refl. reflexivity. }
    apply andb_true_iff in Hp as [Hid _]. apply Z.eqb_eq in Hid.
    assert (c' = c)
      by (apply (NoDup_map_inj Category.id (categories db)); auto).
    subst c'.
    unfold delete_category, request.
    unfold bind at 1. unfold query_first at 1. cbn [txn]. rewrite Hq.
    unfold bind at 1. rewrite Hrun. reflexivity. }
  intros Hfate e He Hcat. unfold cid in *.
  rewrite (request_delete_category_owned db u c fate Hpk Hc Ho), Hfate.
  cbn [snd]. unfold without_category. cbn [exercises].
  apply in_map_iff. exists e. split; [|exact He].
  unfold clear_category. rewrite Hcat. simpl. now rewrite Z.eqb_refl.
Qed.

Lemma delete_category_unlinks_every_owner_witness :
  pk_unique Example.db6
  /\ Exercise.user_id (Exercise.mk 14 "leg press" (Some 1) 1)
     <> User.id Example.bob
  /\ exists unlinked,
       unlink_exercises 1 (mkSession Example.db6 Example.db6 [])
       = (inr tt, unlinked)
       /\ stored unlinked = Example.db6
       /\ In (Category.mk 1 "legs" 2) (categories (txn unlinked))
       /\ In (Exercise.mk 14 "leg press" None 1) (exercises (txn unlinked))
       /\ In (Exercise.mk 14 "leg press" None 1)
            (exercises (snd (request (delete_category 1 Example.bob) []
                               Example.db6))).
Proof.
  assert (Hc : In (Category.mk 1 "legs" 2) (categories Example.db6))
    by (simpl; auto).
  assert (He : In (Exercise.mk 14 "leg press" (Some 1) 1)
                 (exercises Example.db6)) by (simpl; auto 20).
  split; [exact example_db6_pk_unique|]. split; [discriminate|].
  destruct (@delete_category_unlinks_every_owner Example.db6 Example.bob
              (Category.mk 1 "legs" 2) [] example_db6_pk_unique Hc eq_refl)
    as (unlinked & Hrun & Hst & _ & _ & Hcat & _ & _ & Hnull & _ & _ & Hafter).
  exists unlinked. split; [exact Hrun|]. split; [exact Hst|].
  split; [rewrite Hcat; exact Hc|].
  split; [exact (Hnull _ He eq_refl)|exact (Hafter eq_refl _ He eq_refl)].
Defined.

(** ** Every call, case by case *)

Lemma lookup_none_foreign {A} (id user_id : A -> Z) (l : list A) (k uid : Z) :
  hd_error (filter (fun x => (id x =? k) && (user_id x =? uid)) l) = None ->
  forall x, In x l -> id x = k -> user_id x <> uid.
Proof.
  intros Hq x Hx Hid Hu.
  pose proof (hd_error_filter_none_inv _ l Hq x Hx) as Hf.
  simpl in Hf. rewrite Hid, Hu, !Z.eqb_refl in Hf. discriminate.
Qed.

Lemma lookup_some_owned {A} (id user_id : A -> Z) (l : list A) (k uid : Z) x :
  hd_error (filter (fun x => (id x =? k) && (user_id x =? uid)) l) = Some x ->
  In x l /\ id x = k /\ user_id x = uid.
Proof.
  intros Hq. apply hd_error_filter_inv in Hq as [Hx Hp].
  apply andb_true_iff in Hp as [H1 H2]. apply Z.eqb_eq in H1, H2. auto.
Qed.

(** A property of the stored database survives a call as soon as it
    survives each of the writes that a handler can commit. *)
Lemma serve_cases (h : string -> string) (P : DB -> Prop) c fate db :
  P db ->
  (forall user, c = Register user ->
     (forall u, In u (users db) -> User.email u <> UserCreate.email user) ->
     let new_user := User.mk (fresh_id (map User.id (users db)))
                       (UserCreate.email user) (h (UserCreate.password user)) in
     P (mkDB (users db ++ [new_user]) (categories db) (exercises db)
          (workout_records db))
     /\ P (mkDB (users db ++ [new_user]) (categories db)
             (seed default_exercises (User.id new_user) (exercises db))
             (workout_records db))) ->
  (forall category u, c = CreateCategory category u ->
     P (mkDB (users db)
          (categories db
           ++ [Category.mk (fresh_id (map Category.id (categories db)))
                 (CategoryCreate.name category) (User.id u)])
          (exercises db) (workout_records db))) ->
  (forall cid u x, c = DeleteCategory cid u ->
     In x (categories db) -> Category.id x = cid ->
     Category.user_id x = User.id u ->
     P (mkDB (users db)
          (filter (fun y => negb (Category.id y =? cid)) (categories db))
          (map (clear_category cid)
             (unlink_all
                (filter (fun e => option_Z_eqb (Exercise.category_id e) (Some cid))
                   (exercises db))
                (exercises db)))
          (workout_records db))) ->
  (forall exercise u, c = CreateExercise exercise u ->
     P (mkDB (users db) (categories db)
          (exercises db
           ++ [Exercise.mk (fresh_id (map Exercise.id (exercises db)))
                 (ExerciseCreate.name exercise)
                 (ExerciseCreate.category_id exercise) (User.id u)])
          (workout_records db))) ->
  (forall eid upd u e, c = UpdateExercise eid upd u ->
     In e (exercises db) -> Exercise.id e = eid ->
     Exercise.user_id e = User.id u ->
     P (mkDB (users db) (categories db)
          (map (assign_category eid (ExerciseUpdate.category_id upd)) (exercises db))
          (workout_records db))) ->
  (forall eid u e, c = DeleteExercise eid u ->
     In e (exercises db) -> Exercise.id e = eid ->
     Exercise.user_id e = User.id u ->
     P (mkDB (users db) (categories db)
          (filter (fun x => negb (Exercise.id x =? eid)) (exercises db))
          (map (clear_exercise eid) (workout_records db)))) ->
  (forall record u e v, c = CreateRecord record u ->
     In e (exercises db) -> Exercise.id e = RecordCreate.exercise_id record ->
     Exercise.user_id e = User.id u ->
     Py.product (RecordCreate.weight record) (RecordCreate.reps record)
       (RecordCreate.sets record) = inr v ->
     P (mkDB (users db) (categories db) (exercises db)
          (workout_records db ++ [new_record_row record u e v db]))) ->
  (forall rid u r, c = DeleteRecord rid u ->
     In r (workout_records db) -> WorkoutRecord.id r = rid ->
     WorkoutRecord.user_id r = User.id u ->
     P (mkDB (users db) (categories db) (exercises db)
          (filter (fun x => negb (WorkoutRecord.id x =? rid))
             (workout_records db)))) ->
  P (serve h c fate db).
Proof.
  intros H0 Hreg Hcc Hdc Hce Hue Hde Hcr Hdr.
  destruct c as [user|u|category u|cid u|u|exercise u|eid upd u|eid u|u
                |record u|rid u|u]; simpl.
  - destruct (hd_error (filter (fun x => String.eqb (User.email x)
                                           (UserCreate.email user))
                          (users db))) as [x|] eqn:Hq.
    + apply hd_error_filter_inv in Hq as [Hx Hp]. apply String.eqb_eq in Hp.
      rewrite request_register_duplicate by eauto. exact H0.
    + assert (Hnew : forall u, In u (users db) ->
                       User.email u <> UserCreate.email user).
      { intros u Hu. apply String.eqb_neq.
        exact (hd_error_filter_none_inv _ _ Hq u Hu). }
      rewrite (request_register_new h user fate db Hnew).
      destruct (Hreg user eq_refl Hnew) as [H1 H2].
      destruct (commits fate); [destruct (commits (tl fate))|]; assumption.
  - exact H0.
  - rewrite request_create_category.
    destruct (commits fate); [exact (Hcc category u eq_refl)|exact H0].
  - destruct (hd_error (filter (fun x => (Category.id x =? cid)
                                         && (Category.user_id x =? User.id u))
                          (categories db))) as [x|] eqn:Hq.
    + rewrite (request_delete_category_found cid u fate db x Hq).
      apply (lookup_some_owned Category.id Category.user_id) in Hq
        as (Hx & Hid & Hu).
      destruct (commits fate); [|exact H0]. simpl. rewrite Hid. eauto.
    + rewrite request_delete_category_missing; [exact H0|].
      now apply (lookup_none_foreign Category.id Category.user_id).
  - exact H0.
  - rewrite request_create_exercise.
    destruct (commits fate); [exact (Hce exercise u eq_refl)|exact H0].
  - destruct (hd_error (filter (fun x => (Exercise.id x =? eid)
                                         && (Exercise.user_id x =? User.id u))
                          (exercises db))) as [x|] eqn:Hq.
    + rewrite (request_update_exercise_found eid upd u fate db x Hq).
      apply (lookup_some_owned Exercise.id Exercise.user_id) in Hq
        as (Hx & Hid & Hu).
      destruct (commits fate); [|exact H0]. simpl. rewrite Hid. eauto.
    + rewrite request_update_exercise_missing; [exact H0|].
      now apply (lookup_none_foreign Exercise.id Exercise.user_id).
  - destruct (hd_error (filter (fun x => (Exercise.id x =? eid)
                                         && (Exercise.user_id x =? User.id u))
                          (exercises db))) as [x|] eqn:Hq.
    + rewrite (request_delete_exercise_found eid u fate db x Hq).
      apply (lookup_some_owned Exercise.id Exercise.user_id) in Hq
        as (Hx & Hid & Hu).
      destruct (commits fate); [|exact H0]. simpl. rewrite Hid. eauto.
    + rewrite request_delete_exercise_missing; [exact H0|].
      now apply (lookup_none_foreign Exercise.id Exercise.user_id).
  - exact H0.
  - destruct (fits_int64 (RecordCreate.exercise_id record)) eqn:Hfit.
    2:{ rewrite (request_create_record_unbound record u fate db Hfit).
        exact H0. }
    destruct (hd_error (filter (fun x => (Exercise.id x =? RecordCreate.exercise_id record)
                                         && (Exercise.user_id x =? User.id u))
                          (exercises db))) as [x|] eqn:Hq.
    + rewrite (request_create_record_found record u fate db x Hfit Hq).
      apply (lookup_some_owned Exercise.id Exercise.user_id) in Hq
        as (Hx & Hid & Hu).
      destruct (Py.product (RecordCreate.weight record)
                  (RecordCreate.reps record) (RecordCreate.sets record))
        as [err|v] eqn:E1; [exact H0|].
      destruct (fits_int64 (RecordCreate.reps record)
                && fits_int64 (RecordCreate.sets record)); [|exact H0].
      destruct (commits fate); [|exact H0]. simpl. eauto.
    + rewrite request_create_record_missing; [exact H0|exact Hfit|].
      now apply (lookup_none_foreign Exercise.id Exercise.user_id).
  - destruct (hd_error (filter (fun x => (WorkoutRecord.id x =? rid)
                                         && (WorkoutRecord.user_id x =? User.id u))
                          (workout_records db))) as [x|] eqn:Hq.
    + rewrite (request_delete_record_found rid u fate db x Hq).
      apply (lookup_some_owned WorkoutRecord.id WorkoutRecord.user_id) in Hq
        as (Hx & Hid & Hu).
      destruct (commits fate); [|exact H0]. simpl. rewrite Hid. eauto.
    + rewrite request_delete_record_missing; [exact H0|].
      now apply (lookup_none_foreign WorkoutRecord.id WorkoutRecord.user_id).
  - rewrite request_get_stats_db. exact H0.
Qed.

(** ** Invariants of the reachable databases *)

Lemma seed_appends names uid es :
  exists tail,
    seed names uid es = (es ++ tail)%list
    /\ map Exercise.name tail = names
    /\ Forall (fun e => Exercise.category_id e = None
                        /\ Exercise.user_id e = uid) tail.
Proof.
  revert es. induction names as [|n ns IH]; intros es; simpl.
  - exists []. rewrite app_nil_r. auto.
  - destruct (IH (es ++ [Exercise.mk (fresh_id (map Exercise.id es)) n None uid]))
      as (tail & Heq & Hn & Hall).
    exists (Exercise.mk (fresh_id (map Exercise.id es)) n None uid :: tail).
    rewrite Heq, <- app_assoc. simpl. rewrite Hn. auto.
Qed.

Lemma seed_keys_unique names uid es :
  NoDup (map Exercise.id es) -> NoDup (map Exercise.id (seed names uid es)).
Proof.
  revert es. induction names as [|n ns IH]; intros es H; simpl; [assumption|].
  apply IH. rewrite map_app. simpl. now apply NoDup_snoc_fresh.
Qed.

Lemma assign_category_id k c e : Exercise.id (assign_category k c e) = Exercise.id e.
Proof. unfold assign_category. destruct (_ =? _); reflexivity. Qed.

Lemma assign_category_user_id k c e : Exercise.user_id (assign_category k c e) = Exercise.user_id e.
Proof. unfold assign_category. destruct (_ =? _); reflexivity. Qed.

Lemma clear_category_id k e : Exercise.id (clear_category k e) = Exercise.id e.
Proof. unfold clear_category. destruct (option_Z_eqb _ _); reflexivity. Qed.

Lemma clear_category_user_id k e :
  Exercise.user_id (clear_category k e) = Exercise.user_id e.
Proof. unfold clear_category. destruct (option_Z_eqb _ _); reflexivity. Qed.

Lemma clear_exercise_id k r : WorkoutRecord.id (clear_exercise k r) = WorkoutRecord.id r.
Proof. unfold clear_exercise. destruct (option_Z_eqb _ _); reflexivity. Qed.

Lemma clear_exercise_user_id k r :
  WorkoutRecord.user_id (clear_exercise k r) = WorkoutRecord.user_id r.
Proof. unfold clear_exercise. destruct (option_Z_eqb _ _); reflexivity. Qed.

(** What the unlink loop followed by the delete leaves of an exercise. *)
Lemma unlinked_row cid xs es e' :
  In e' (map (clear_category cid) (unlink_all xs es)) ->
  exists e, In e es
    /\ Exercise.id e' = Exercise.id e
    /\ Exercise.name e' = Exercise.name e
    /\ Exercise.user_id e' = Exercise.user_id e
    /\ (Exercise.category_id e' = None
        \/ (Exercise.category_id e' = Exercise.category_id e
            /\ Exercise.category_id e <> Some cid)).
Proof.
  rewrite unlink_all_pointwise, map_map.
  intros H. apply in_map_iff in H as (e & <- & He).
  exists e. split; [assumption|].
  destruct (existsb _ xs); unfold clear_category.
  - simpl. auto.
  - destruct (option_Z_eqb (Exercise.category_id e) (Some cid)) eqn:E.
    + simpl. auto.
    + repeat split; auto. right. split; [reflexivity|].
      intros H. apply option_Z_eqb_eq in H. congruence.
Qed.

Lemma unlinked_keys cid xs es :
  map Exercise.id (map (clear_category cid) (unlink_all xs es))
  = map Exercise.id es.
Proof.
  rewrite unlink_all_pointwise, !map_map. apply map_ext. intros e.
  rewrite clear_category_id. destruct (existsb _ xs); reflexivity.
Qed.

Arguments seed : simpl never.

Lemma pk_unique_serve h c fate db :
  pk_unique db -> pk_unique (serve h c fate db).
Proof.
  intros Hpk. pose proof Hpk as (Hu & Hc & He & Hr).
  apply serve_cases; try assumption; unfold pk_unique; simpl.
  - intros user _ _. rewrite map_app. simpl.
    repeat split; auto using NoDup_snoc_fresh, seed_keys_unique.
  - intros category u _. rewrite map_app. simpl.
    repeat split; auto using NoDup_snoc_fresh.
  - intros cid u x _ _ _ _. rewrite unlinked_keys.
    repeat split; auto using NoDup_map_filter.
  - intros exercise u _. rewrite map_app. simpl.
    repeat split; auto using NoDup_snoc_fresh.
  - intros eid upd u e _ _ _ _. rewrite map_map.
    rewrite (map_ext _ Exercise.id (assign_category_id eid _)). auto.
  - intros eid u e _ _ _ _. rewrite map_map.
    rewrite (map_ext _ WorkoutRecord.id (clear_exercise_id eid)).
    repeat split; auto using NoDup_map_filter.
  - intros record u e v _ _ _ _ _. rewrite map_app. simpl.
    repeat split; auto using NoDup_snoc_fresh.
  - intros rid u r _ _ _ _. repeat split; auto using NoDup_map_filter.
Qed.

Lemma owners_stored_serve h c fate db :
  authenticated c db -> owners_stored db -> owners_stored (serve h c fate db).
Proof.
  intros Hauth Hown. pose proof Hown as (Hc & He & Hr).
  apply serve_cases; try assumption; unfold owners_stored; simpl.
  - intros user _ _. rewrite map_app. simpl.
    repeat split; intros x Hx; try (apply in_or_app; left; auto; fail).
    destruct (seed_appends default_exercises
                (fresh_id (map User.id (users db))) (exercises db))
      as (tail & Heq & _ & Hall).
    rewrite Heq in Hx. apply in_or_app.
    apply in_app_or in Hx as [Hx|Hx]; [left; auto|right].
    rewrite Forall_forall in Hall. destruct (Hall x Hx) as [_ ->].
    simpl. auto.
  - intros category u ->. simpl in Hauth.
    repeat split; auto. intros x Hx.
    apply in_app_or in Hx as [Hx|[<-|[]]]; auto.
    simpl. now apply in_map.
  - intros cid u x _ _ _ _. repeat split; auto.
    + intros y Hy. apply filter_In in Hy as [Hy _]. auto.
    + intros y Hy. apply unlinked_row in Hy as (e & Hin & _ & _ & -> & _). auto.
  - intros exercise u ->. simpl in Hauth.
    repeat split; auto. intros x Hx.
    apply in_app_or in Hx as [Hx|[<-|[]]]; auto.
    simpl. now apply in_map.
  - intros eid upd u e _ _ _ _. repeat split; auto.
    intros y Hy. apply in_map_iff in Hy as (y0 & <- & Hy0).
    rewrite assign_category_user_id. auto.
  - intros eid u e _ _ _ _. repeat split; auto.
    + intros y Hy. apply filter_In in Hy as [Hy _]. auto.
    + intros y Hy. apply in_map_iff in Hy as (y0 & <- & Hy0).
      rewrite clear_exercise_user_id. auto.
  - intros record u e v -> _ _ _ _. simpl in Hauth.
    repeat split; auto. intros x Hx.
    apply in_app_or in Hx as [Hx|[<-|[]]]; auto.
    simpl. now apply in_map.
  - intros rid u r _ _ _ _. repeat split; auto.
    intros y Hy. apply filter_In in Hy as [Hy _]. auto.
Qed.

Lemma reaches_pk_unique h start db :
  reaches h start db -> pk_unique start -> pk_unique db.
Proof.
  induction 1 as [|c fate db _ IH _]; intros Hs; [assumption|].
  apply pk_unique_serve. now apply IH.
Qed.

Lemma reaches_owners_stored h start db :
  reaches h start db -> owners_stored start -> owners_stored db.
Proof.
  induction 1 as [|c fate db _ IH Hauth]; intros Hs; [assumption|].
  apply owners_stored_serve; [assumption|]. now apply IH.
Qed.

Lemma reachable_pk_unique h db : reachable h db -> pk_unique db.
Proof.
  intros H. apply (reaches_pk_unique h empty_db db H).
  repeat split; constructor.
Qed.

Lemma reachable_owners_stored h db : reachable h db -> owners_stored db.
Proof.
  intros H. apply (reaches_owners_stored h empty_db db H).
  repeat split; intros x [].
Qed.

(** ** Registration *)

Lemma seeded_for_new_user uid db :
  owners_stored db ->
  ~ In uid (map User.id (users db)) ->
  forall us cs rs,
    owns_six_defaults uid
      (mkDB us cs (seed default_exercises uid (exercises db)) rs).
Proof.
  intros (_ & Hown & _) Hnew us cs rs.
  destruct (seed_appends default_exercises uid (exercises db))
    as (tail & Heq & Hnames & Hall).
  unfold owns_six_defaults. simpl. rewrite Heq, filter_app.
  rewrite (filter_nil_of _ (exercises db)).
  2:{ intros e He. apply Z.eqb_neq. intros Hu. apply Hnew.
      rewrite <- Hu. now apply Hown. }
  rewrite (filter_all_of _ tail).
  2:{ intros e He. rewrite Forall_forall in Hall.
      apply Z.eqb_eq. now apply Hall. }
  simpl. repeat split.
  - rewrite <- (length_map Exercise.name), Hnames. reflexivity.
  - assumption.
  - eapply Forall_impl; [|exact Hall]. simpl. tauto.
Qed.

Lemma snoc_not_same {A} (l : list A) (x : A) : l ++ [x] <> l.
Proof.
  intros H. apply (f_equal (@List.length A)) in H.
  rewrite length_app in H. simpl in H. lia.
Qed.

(** C7, as the handler has it: every successful registration stores the
    user under a new key and exactly six default exercises owned by that
    user, all uncategorized, after the exercises already there.  The user
    is committed before the seeding: a registration that fails has stored
    nothing, or, when the first commit went through and the second was
    refused, has stored the user alone with no exercise added.  With an
    email that no stored user has, the registration succeeds as soon as
    both commits go through; and the database is left as it was exactly
    when the email is a duplicate or the first commit is refused. *)
Theorem register_seeds_six_defaults :
  forall (h : string -> string) user fate db,
    reachable h db ->
    let res := request (register h user) fate db in
    (forall u, fst res = inr u ->
       users (snd res) = users db ++ [u]
       /\ User.email u = UserCreate.email user
       /\ ~ In (User.id u) (map User.id (users db))
       /\ owns_six_defaults (User.id u) (snd res)
       /\ (exists six, exercises (snd res) = exercises db ++ six
                       /\ List.length six = 6%nat)
       /\ categories (snd res) = categories db
       /\ workout_records (snd res) = workout_records db)
    /\ (forall e, fst res = inl e ->
          snd res = db
          \/ (e = Py.OperationalError
              /\ commits fate = true /\ commits (tl fate) = false
              /\ (exists u, users (snd res) = users db ++ [u]
                            /\ User.email u = UserCreate.email user)
              /\ exercises (snd res) = exercises db
              /\ categories (snd res) = categories db
              /\ workout_records (snd res) = workout_records db))
    /\ ((forall u, In u (users db) -> User.email u <> UserCreate.email user) ->
        commits fate = true -> commits (tl fate) = false ->
        exists u, res = (inl Py.OperationalError,
                         mkDB (users db ++ [u]) (categories db) (exercises db)
                           (workout_records db)))
    /\ ((forall u, In u (users db) -> User.email u <> UserCreate.email user) ->
        commits fate = true -> commits (tl fate) = true ->
        exists u, fst res = inr u)
    /\ ((exists u, In u (users db) /\ User.email u = UserCreate.email user) ->
        res = (inl (Py.HTTPException 400
                      "このメールアドレスは既に使用されています"), db))
    /\ ((forall u, In u (users db) -> User.email u <> UserCreate.email user) ->
        commits fate = false -> res = (inl Py.OperationalError, db))
    /\ (snd res = db <->
        (exists u, In u (users db) /\ User.email u = UserCreate.email user)
        \/ commits fate = false).
Proof.
  intros h user fate db Hreach res.
  pose proof (reachable_owners_stored h db Hreach) as Hown.
  set (new_user := User.mk (fresh_id (map User.id (users db)))
                     (UserCreate.email user) (h (UserCreate.password user))).
  assert (Hfresh : ~ In (User.id new_user) (map User.id (users db)))
    by apply fresh_id_new.
  destruct (hd_error (filter (fun x => String.eqb (User.email x)
                                         (UserCreate.email user))
                        (users db))) as [x|] eqn:Hq.
  - apply hd_error_filter_inv in Hq as [Hx Hp]. apply String.eqb_eq in Hp.
    unfold res. rewrite request_register_duplicate by eauto. simpl.
    split; [discriminate|]. split; [auto|].
    split; [intros Hnew; exfalso; now apply (Hnew x Hx)|].
    split; [intros Hnew; exfalso; now apply (Hnew x Hx)|].
    split; [reflexivity|].
    split; [intros Hnew; exfalso; now apply (Hnew x Hx)|].
    split; [intros _; left; eauto|reflexivity].
  - assert (Hnew : forall u, In u (users db) ->
                     User.email u <> UserCreate.email user).
    { intros u Hu. apply String.eqb_neq.
      exact (hd_error_filter_none_inv _ _ Hq u Hu). }
    unfold res. rewrite (request_register_new h user fate db Hnew).
    fold new_user.
    destruct (commits fate); [destruct (commits (tl fate))|]; simpl.
    + split.
      { intros u Hu. injection Hu as <-.
        split; [reflexivity|]. split; [reflexivity|]. split; [exact Hfresh|].
        split; [|split; [|split; reflexivity]].
        * now apply seeded_for_new_user.
        * destruct (seed_appends default_exercises (User.id new_user) (exercises db))
            as (tail & Heq & Hnames & _).
          exists tail. split; [exact Heq|].
          rewrite <- (length_map Exercise.name), Hnames. reflexivity. }
      split; [discriminate|]. split; [discriminate|].
      split; [intros _ _ _; exists new_user; reflexivity|].
      split; [intros (u & Hu & He); exfalso; now apply (Hnew u Hu)|].
      split; [discriminate|].
      split.
      * intros Hsame. exfalso. apply (f_equal users) in Hsame.
        simpl in Hsame. now apply snoc_not_same in Hsame.
      * intros [(u & Hu & He)|Hf]; [|discriminate Hf].
        exfalso. now apply (Hnew u Hu).
    + split; [discriminate|]. split.
      { intros e He. injection He as <-. right.
        repeat split; auto. exists new_user. auto. }
      split; [intros _ _ _; exists new_user; reflexivity|].
      split; [discriminate|].
      split; [intros (u & Hu & He); exfalso; now apply (Hnew u Hu)|].
      split; [discriminate|].
      split.
      * intros Hsame. exfalso. apply (f_equal users) in Hsame.
        simpl in Hsame. now apply snoc_not_same in Hsame.
      * intros [(u & Hu & He)|Hf]; [|discriminate Hf].
        exfalso. now apply (Hnew u Hu).
    + split; [discriminate|]. split; [auto|]. split; [discriminate|].
      split; [discriminate|].
      split; [intros (u & Hu & He); exfalso; now apply (Hnew u Hu)|].
      split; [reflexivity|].
      split; [intros _; now right|reflexivity].
Qed.

Lemma register_seeds_six_defaults_witness :
  reachable Example.hash Example.db1
  /\ owns_six_defaults 2
       (snd (request (register Example.hash Example.bob_form) [] Example.db1)).
Proof.
  assert (Hr : reachable Example.hash Example.db1).
  { change Example.db1
      with (serve Example.hash (Register Example.alice_form) [] empty_db).
    apply reaches_serve; [apply reaches_refl|exact I]. }
  split; [exact Hr|].
  destruct (register_seeds_six_defaults Example.hash Example.bob_form []
              Example.db1 Hr) as [Hok _].
  destruct (Hok Example.bob eq_refl) as (_ & _ & _ & Hsix & _).
  exact Hsix.
Defined.

Lemma register_not_atomic :
  ~ register_all_or_nothing Example.hash Example.alice_form [true; false]
      empty_db.
Proof.
  unfold register_all_or_nothing. simpl. intros [(u & _ & _ & Hlen & _)|[H _]].
  - discriminate Hlen.
  - apply (H Example.alice); [simpl; auto|reflexivity].
Qed.

(** ** Category links *)

Lemma example_db5_reachable : reachable Example.hash Example.db5.
Proof.
  change Example.db5
    with (serve Example.hash (CreateExercise Example.borrowed Example.alice) []
            Example.db4).
  apply reaches_serve; [|unfold authenticated; simpl; tauto].
  change Example.db4
    with (serve Example.hash (CreateExercise Example.lunge Example.bob) []
            Example.db3).
  apply reaches_serve; [|unfold authenticated; simpl; tauto].
  change Example.db3
    with (serve Example.hash (CreateCategory Example.legs Example.bob) []
            Example.db2).
  apply reaches_serve; [|unfold authenticated; simpl; tauto].
  change Example.db2
    with (serve Example.hash (Register Example.bob_form) [] Example.db1).
  apply reaches_serve; [|exact I].
  change Example.db1
    with (serve Example.hash (Register Example.alice_form) [] empty_db).
  apply reaches_serve; [apply reaches_refl|exact I].
Qed.

Lemma category_links_can_cross_users :
  ~ (forall (h : string -> string) db,
       reachable h db -> category_links_owned db).
Proof.
  intros H.
  destruct (H Example.hash Example.db5 example_db5_reachable
              (Exercise.mk 14 "leg press" (Some 1) 1) 1)
    as (c & Hc & Hid & Hu); [simpl; auto 20|reflexivity|].
  simpl in Hc. destruct Hc as [<-|[]]. discriminate Hu.
Qed.

(** C9, as the handlers have it: no handler checks who owns the category
    that a request names, so the link invariant holds of the empty database
    and is preserved by every call provided [create_exercise] and
    [update_exercise] are given a null [category_id] or the id of a
    category of the caller. *)
Theorem category_links_preserved :
  forall (h : string -> string) c fate db,
    pk_unique db ->
    category_links_owned db ->
    names_own_category c db ->
    category_links_owned empty_db
    /\ category_links_owned (serve h c fate db).
Proof.
  intros h c fate db Hpk Hinv Hreq.
  split; [intros e cid []|].
  apply serve_cases; try assumption; unfold category_links_owned; simpl.
  - intros user _ _. split; [exact Hinv|].
    intros e cid He Hcat.
    destruct (seed_appends default_exercises
                (fresh_id (map User.id (users db))) (exercises db))
      as (tail & Heq & _ & Hall).
    rewrite Heq in He. apply in_app_or in He as [He|He]; [eauto|].
    rewrite Forall_forall in Hall. destruct (Hall e He) as [Hnone _].
    congruence.
  - intros category u _ e cid He Hcat.
    destruct (Hinv e cid He Hcat) as (x & Hx & Hid & Hu).
    exists x. split; [apply in_or_app; now left|auto].
  - intros cid u x _ _ _ _ e k He Hcat.
    apply unlinked_row in He as (e0 & He0 & _ & _ & Hu & [Hn|[Hsame Hne]]);
      [congruence|].
    rewrite Hsame in Hcat.
    destruct (Hinv e0 k He0 Hcat) as (y & Hy & Hid & Hyu).
    exists y. split; [|split; congruence].
    apply filter_In. split; [assumption|].
    apply negb_true_iff, Z.eqb_neq. congruence.
  - intros exercise u -> e cid He Hcat.
    apply in_app_or in He as [He|[<-|[]]]; [eauto|].
    simpl in Hcat, Hreq |- *. rewrite Hcat in Hreq. exact Hreq.
  - intros eid upd u e -> He Hid Hu e' cid He' Hcat.
    apply in_map_iff in He' as (e0 & <- & He0).
    unfold assign_category in Hcat |- *.
    destruct (Exercise.id e0 =? eid) eqn:E; [|eauto].
    apply Z.eqb_eq in E. destruct Hpk as (_ & _ & Hnd & _).
    assert (e0 = e) by (apply (NoDup_map_inj Exercise.id (exercises db));
                        auto; congruence).
    subst e0. simpl in Hcat, Hreq |- *. rewrite Hcat in Hreq.
    rewrite Hu. exact Hreq.
  - intros eid u e _ _ _ _ e' cid He' Hcat.
    apply filter_In in He' as [He' _]. eauto.
  - intros record u e v _ _ _ _ _. exact Hinv.
  - intros rid u r _ _ _ _. exact Hinv.
Qed.

Lemma category_links_preserved_witness :
  pk_unique Example.db3
  /\ category_links_owned Example.db3
  /\ names_own_category (CreateExercise Example.lunge Example.bob) Example.db3
  /\ category_links_owned Example.db4.
Proof.
  assert (Hpk : pk_unique Example.db3)
    by (repeat split; simpl; concrete_nodup).
  assert (Hinv : category_links_owned Example.db3).
  { intros e cid He Hcat. simpl in He.
    repeat (destruct He as [<-|He]; [discriminate Hcat|]). destruct He. }
  assert (Hreq : names_own_category
                   (CreateExercise Example.lunge Example.bob) Example.db3).
  { exists (Category.mk 1 "legs" 2). simpl. auto. }
  split; [exact Hpk|]. split; [exact Hinv|]. split; [exact Hreq|].
  exact (proj2 (category_links_preserved Example.hash
                  (CreateExercise Example.lunge Example.bob) [] Example.db3
                  Hpk Hinv Hreq)).
Defined.

(** ** Stored records *)

Lemma serve_records h c fate db r' :
  In r' (workout_records (serve h c fate db)) ->
  (exists r, In r (workout_records db)
     /\ (r' = r
         \/ (r' = WorkoutRecord.with_exercise_id None r
             /\ exists eid u, c = DeleteExercise eid u
                              /\ WorkoutRecord.exercise_id r = Some eid)))
  \/ (exists record u e v,
        c = CreateRecord record u
        /\ In e (exercises db)
        /\ Exercise.id e = RecordCreate.exercise_id record
        /\ Exercise.user_id e = User.id u
        /\ Py.product (RecordCreate.weight record) (RecordCreate.reps record)
             (RecordCreate.sets record) = inr v
        /\ r' = new_record_row record u e v db).
Proof.
  revert r'.
  apply (serve_cases h
    (fun after => forall r', In r' (workout_records after) -> _));
    simpl; try (intros; left; eauto; fail).
  - intros user _ _. split; intros; left; eauto.
  - intros eid u e -> _ _ _ r' Hr'.
    apply in_map_iff in Hr' as (r & <- & Hr). left. exists r.
    split; [assumption|]. unfold clear_exercise.
    destruct (option_Z_eqb (WorkoutRecord.exercise_id r) (Some eid)) eqn:E;
      [right|now left].
    apply option_Z_eqb_eq in E. eauto.
  - intros record u e v -> He Hid Hu Hv r' Hr'.
    apply in_app_or in Hr' as [Hr'|[<-|[]]]; [left; eauto|right].
    exists record, u, e, v. auto 10.
  - intros rid u r _ _ _ _ r' Hr'.
    apply filter_In in Hr' as [Hr' _]. left. eauto.
Qed.

Lemma example_logged : workout_records Example.db6 = [Example.logged].
Proof. reflexivity. Qed.

Lemma example_db6_reachable : reachable Example.hash Example.db6.
Proof.
  change Example.db6
    with (serve Example.hash (CreateRecord Example.bench Example.bob) []
            Example.db5).
  apply reaches_serve; [exact example_db5_reachable|].
  unfold authenticated; simpl; tauto.
Qed.

(** After any call, reads included, a stored record is either a record
    that was stored before, with the same [exercise_name], [volume] and
    every other field except that [delete_exercise] clears the
    [exercise_id] of the records of the deleted exercise, or the record
    that the call created, whose [exercise_name] is the name that the
    caller's exercise had at that moment. *)
Lemma records_rewritten_only_by_unlinking :
  forall (h : string -> string) c fate db r',
    In r' (workout_records (serve h c fate db)) ->
    (exists r, In r (workout_records db)
       /\ WorkoutRecord.exercise_name r' = WorkoutRecord.exercise_name r
       /\ WorkoutRecord.volume r' = WorkoutRecord.volume r
       /\ (r' = r
           \/ (r' = WorkoutRecord.with_exercise_id None r
               /\ exists eid u, c = DeleteExercise eid u
                                /\ WorkoutRecord.exercise_id r = Some eid)))
    \/ (exists record u e volume,
          c = CreateRecord record u
          /\ In e (exercises db)
          /\ Exercise.id e = RecordCreate.exercise_id record
          /\ Exercise.user_id e = User.id u
          /\ WorkoutRecord.exercise_name r' = Exercise.name e
          /\ Py.product (RecordCreate.weight record) (RecordCreate.reps record)
               (RecordCreate.sets record) = inr volume
          /\ WorkoutRecord.volume r' = stored_float volume).
Proof.
  intros h c fate db r' Hr'.
  destruct (serve_records h c fate db r' Hr')
    as [(r & Hr & Hsame)|(record & u & e & v & Hc & He & Hid & Hu & Hv & ->)].
  - left. exists r. split; [assumption|].
    destruct Hsame as [->|[-> Hdel]]; simpl; auto.
  - right. exists record, u, e, v. simpl. auto 10.
Qed.

(** C8: the code breaks the claim.  Bob has logged a record on his
    exercise 7 and deletes that exercise: the record stays stored, with the
    [exercise_name] and the [volume] it had, but its [exercise_id] is now
    null, so the record was neither created nor deleted whole; and
    [GET /records], which listed the record to Bob before, now raises on the
    response model of the route, whose [exercise_id] is an int. *)
Theorem delete_exercise_breaks_record_listing :
  let before := Example.db6 in
  let after := serve Example.hash (DeleteExercise 7 Example.bob) [] before in
  reachable Example.hash before
  /\ workout_records before = [Example.logged]
  /\ workout_records after = [WorkoutRecord.with_exercise_id None Example.logged]
  /\ ~ records_kept_whole Example.hash (DeleteExercise 7 Example.bob) [] before
  /\ (exists row,
        fst (request (get_records_response Example.bob) [] before) = inr [row]
        /\ RecordResponse.exercise_id row = 7
        /\ RecordResponse.exercise_name row = "ベンチプレス")
  /\ fst (request (get_records_response Example.bob) [] after)
     = inl Py.ResponseValidationError.
Proof.
  cbv zeta.
  split; [exact example_db6_reachable|].
  split; [reflexivity|]. split; [reflexivity|]. split.
  - intros H.
    destruct (H (WorkoutRecord.with_exercise_id None Example.logged))
      as [Hin|(record & u & Hc)].
    + simpl. left. reflexivity.
    + rewrite example_logged in Hin. destruct Hin as [Heq|[]].
      discriminate Heq.
    + discriminate Hc.
  - split; [|reflexivity]. eexists. split; [reflexivity|]. split; reflexivity.
Qed.

(** ** Floats: order, zero and truncation *)










(** ** The volume of a record *)








(** What a [create_record] that returns has done. *)
Lemma request_create_record_returns record u fate db r after :
  request (create_record record u) fate db = (inr r, after) ->
  exists e v,
    In e (exercises db)
    /\ Exercise.id e = RecordCreate.exercise_id record
    /\ Exercise.user_id e = User.id u
    /\ Py.product (RecordCreate.weight record) (RecordCreate.reps record)
         (RecordCreate.sets record) = inr v
    /\ fits_int64 (RecordCreate.exercise_id record) = true
    /\ fits_int64 (RecordCreate.reps record) = true
    /\ fits_int64 (RecordCreate.sets record) = true
    /\ r = new_record_row record u e v db
    /\ after = mkDB (users db) (categories db) (exercises db)
                 (workout_records db ++ [new_record_row record u e v db]).
Proof.
  intros Hreq.
  destruct (fits_int64 (RecordCreate.exercise_id record)) eqn:Hfit.
  2:{ rewrite (request_create_record_unbound record u fate db Hfit) in Hreq.
      discriminate. }
  destruct (hd_error (filter (fun x => (Exercise.id x =? RecordCreate.exercise_id record)
                                       && (Exercise.user_id x =? User.id u))
                        (exercises db))) as [e|] eqn:Hq.
  2:{ rewrite request_create_record_missing in Hreq;
        [discriminate|exact Hfit|].
      now apply (lookup_none_foreign Exercise.id Exercise.user_id). }
  rewrite (request_create_record_found record u fate db e Hfit Hq) in Hreq.
  apply (lookup_some_owned Exercise.id Exercise.user_id) in Hq
    as (He & Hid & Hu).
  destruct (Py.product (RecordCreate.weight record) (RecordCreate.reps record)
              (RecordCreate.sets record)) as [err|v] eqn:Hv; [discriminate|].
  destruct (fits_int64 (RecordCreate.reps record)) eqn:Hreps;
    [|discriminate].
  destruct (fits_int64 (RecordCreate.sets record)) eqn:Hsets;
    [|discriminate].
  cbn [andb] in Hreq. destruct (commits fate); [|discriminate].
  exists e, v.
  assert (H1 := f_equal fst Hreq). assert (H2 := f_equal snd Hreq).
  cbn [fst snd] in H1, H2.
  assert (Hr : r = new_record_row record u e v db) by congruence.
  split; [exact He|]. split; [exact Hid|]. split; [exact Hu|].
  split; [reflexivity|]. split; [reflexivity|]. split; [reflexivity|].
  split; [reflexivity|]. split; [exact Hr|]. now rewrite <- H2.
Qed.




(** ** Statistics *)









(** From CPython 3.12 on, [sum] over the volumes of stored rows is the
    compensated sum: the int loop and the int items only add zeros. *)
Lemma fsub_diag s m e :
  Py.fsub (S754_finite s m e) (S754_finite s m e) = S754_zero false.
Proof.
  unfold Py.fsub, SFsub. cbv zeta. now rewrite Z.sub_diag.
Qed.

Lemma fadd_zero_same C c z :
  is_zero z -> same_up_to_zero C c -> same_up_to_zero (Py.fadd C z) c.
Proof.
  destruct z as [sz| | |]; try contradiction. intros _ [->|[HC Hc]].
  - destruct c as [sc|sc| |sc mc ec]; [right|left|left|left];
      try reflexivity.
    split; [|exact I]. destruct sc, sz; exact I.
  - right. split; [|exact Hc].
    destruct C as [sC| | |]; try contradiction. destruct sC, sz; exact I.
Qed.

Lemma fadd_same C c d :
  same_up_to_zero C c -> same_up_to_zero (Py.fadd C d) (Py.fadd c d).
Proof.
  intros [->|[HC Hc]]; [now left|].
  destruct C as [sC| | |], c as [sc| | |]; try contradiction.
  destruct d as [sd|sd| |sd md ed]; [right|left|left|left]; try reflexivity.
  split; [destruct sC, sd; exact I|destruct sc, sd; exact I].
Qed.

Lemma compensated_same f C c :
  same_up_to_zero C c ->
  (if Py.truthy C && Py.is_finite C then Py.fadd f C else f)
  = Py.compensated Py.From312 f c.
Proof.
  intros [->|[HC Hc]]; [reflexivity|].
  destruct C, c; try contradiction. reflexivity.
Qed.

Lemma compensated_nonfinite f c :
  Py.is_finite f = false ->
  (if Py.truthy c && Py.is_finite c then Py.fadd f c else f) = f.
Proof.
  destruct f as [s|s| |s m e]; try discriminate; intros _;
    destruct c as [sc|sc| |sc mc ec]; reflexivity.
Qed.

Lemma fadd_nonfinite f x :
  Py.is_finite f = false -> Py.is_finite (Py.fadd f x) = false.
Proof.
  destruct f as [s|s| |s m e]; try discriminate; intros _;
    destruct x as [sx|sx| |sx mx ex]; try reflexivity.
  destruct s, sx; reflexivity.
Qed.

(** Adding a zero to a finite total leaves no rounding error. *)
Lemma zero_item_error f :
  Py.is_finite f = true ->
  Py.fle (Py.fabs (S754_zero false)) (Py.fabs f) = true
  /\ is_zero (Py.fadd (Py.fsub f (Py.fadd f (S754_zero false)))
                (S754_zero false)).
Proof.
  destruct f as [s|s| |s m e]; try discriminate; intros _.
  - split; [reflexivity|]. destruct s; exact I.
  - split; [reflexivity|].
    change (Py.fadd (S754_finite s m e) (S754_zero false))
      with (S754_finite s m e).
    rewrite fsub_diag. exact I.
Qed.

Lemma sum_floats_compensated fs f c C :
  (forall x, In x fs -> exists w, x = stored_float w) ->
  same_up_to_zero C c \/ Py.is_finite f = false ->
  Py.sum_floats Py.From312 f c (map Py.or0 fs)
  = inr (Py.Float (compensated_from f C (map null_as_zero fs))).
Proof.
  revert f c C. induction fs as [|x fs IH]; intros f c C Hfs Hinv.
  - cbn [map Py.sum_floats compensated_from]. do 2 f_equal.
    destruct Hinv as [Hsame|Hf].
    + symmetry. now apply compensated_same.
    + rewrite (compensated_nonfinite f C Hf).
      unfold Py.compensated. now apply compensated_nonfinite.
  - assert (Hrest : forall y, In y fs -> exists w, y = stored_float w)
      by (intros y Hy; apply Hfs; simpl; auto).
    destruct (Hfs x (or_introl eq_refl)) as (w & ->).
    assert (Hzero : Py.sum_floats Py.From312 f c (Py.Int 0 :: map Py.or0 fs)
                    = Py.sum_floats Py.From312 (Py.fadd f (S754_zero false)) c
                        (map Py.or0 fs)) by reflexivity.
    assert (Hz : Py.sum_floats Py.From312 f c (Py.Int 0 :: map Py.or0 fs)
                 = inr (Py.Float
                          (compensated_from f C
                             (S754_zero false :: map null_as_zero fs)))).
    { rewrite Hzero. cbn [compensated_from].
      apply IH; [exact Hrest|].
      destruct (Py.is_finite f) eqn:Hf.
      - destruct Hinv as [Hsame|Hbad]; [|discriminate].
        destruct (zero_item_error f Hf) as [-> Herr]. left.
        now apply fadd_zero_same.
      - right. now apply fadd_nonfinite. }
    destruct w as [s|s| |s m e].
    + exact Hz.
    + cbn [map stored_float Py.or0 Py.truthy null_as_zero Py.sum_floats
           compensated_from].
      apply IH; [exact Hrest|].
      destruct Hinv as [Hsame|Hbad].
      * left. destruct (Py.fle _ _); now apply fadd_same.
      * right. now apply fadd_nonfinite.
    + exact Hz.
    + cbn [map stored_float Py.or0 Py.truthy null_as_zero Py.sum_floats
           compensated_from].
      apply IH; [exact Hrest|].
      destruct Hinv as [Hsame|Hbad].
      * left. destruct (Py.fle _ _); now apply fadd_same.
      * right. now apply fadd_nonfinite.
Qed.

Lemma sum_compensated fs :
  (forall x, In x fs -> exists w, x = stored_float w) ->
  exists total, Py.sum Py.From312 (map Py.or0 fs) = inr total
                /\ agree total (compensated_sum fs).
Proof.
  unfold Py.sum, compensated_sum. induction fs as [|x fs IH]; intros Hfs.
  - exists (Py.Int 0). split; [reflexivity|]. simpl. auto.
  - assert (Hrest : forall y, In y fs -> exists w, y = stored_float w)
      by (intros y Hy; apply Hfs; simpl; auto).
    destruct (Hfs x (or_introl eq_refl)) as (w & ->).
    destruct w as [s|s| |s m e].
    + exact (IH Hrest).
    + eexists. split.
      * cbn [map stored_float Py.or0 Py.truthy Py.sum_ints].
        change (Py.float_of_int 0) with (@inr Py.exn _ (S754_zero false)).
        cbv iota.
        apply (sum_floats_compensated fs _ _
                 (Py.fadd (S754_zero false)
                    (Py.fadd (Py.fsub (S754_infinity s)
                                (Py.fadd (S754_zero false) (S754_infinity s)))
                       (S754_zero false)))
                 Hrest).
        right. reflexivity.
      * left. reflexivity.
    + exact (IH Hrest).
    + eexists. split.
      * cbn [map stored_float Py.or0 Py.truthy Py.sum_ints].
        change (Py.float_of_int 0) with (@inr Py.exn _ (S754_zero false)).
        cbv iota.
        apply (sum_floats_compensated fs _ _
                 (Py.fadd (S754_zero false)
                    (Py.fadd (Py.fsub (S754_finite s m e)
                                (Py.fadd (S754_zero false) (S754_finite s m e)))
                       (S754_zero false)))
                 Hrest).
        left.
        change (Py.fadd (S754_zero false) (S754_finite s m e))
          with (S754_finite s m e).
        rewrite fsub_diag. now left.
      * left. reflexivity.
Qed.



Lemma request_get_stats v u fate db :
  let rs := filter (fun r => WorkoutRecord.user_id r =? User.id u)
              (workout_records db) in
  request (get_stats v u) fate db =
  match Py.sum v (map (fun r => Py.or0 (WorkoutRecord.volume r)) rs) with
  | inl e => (inl e, db)
  | inr total =>
      match Py.int total with
      | inl e => (inl e, db)
      | inr n =>
          (inr (StatsResponse.mk
                  (Z.of_nat (List.length (Py.set (map WorkoutRecord.date rs))))
                  n
                  (Py.max (map (fun r => Py.or0 (WorkoutRecord.weight r)) rs)
                     (Py.Int 0))),
           db)
      end
  end.
Proof.
  intros rs. unfold get_stats. run_handler. fold rs.
  destruct (Py.sum v _) as [e|total]; [reflexivity|].
  destruct (Py.int total); reflexivity.
Qed.

















(** ** The database URL *)

Lemma prefix_skip p s :
  String.prefix p s = true ->
  s = (p ++ Database.skip (String.length p) s)%string.
Proof.
  revert s. induction p as [|a p IH]; intros s H; simpl; [reflexivity|].
  destruct s as [|b s]; simpl in H; [discriminate|].
  destruct (Ascii.ascii_dec a b) as [->|]; [|discriminate].
  f_equal. now apply IH.
Qed.

Lemma prefix_append p r : String.prefix p (p ++ r)%string = true.
Proof.
  induction p as [|a p IH]; simpl; [now destruct r|].
  destruct (Ascii.ascii_dec a a); [exact IH|congruence].
Qed.

Lemma skip_append p r : Database.skip (String.length p) (p ++ r)%string = r.
Proof. induction p as [|a p IH]; simpl; [reflexivity|exact IH]. Qed.

Lemma database_url_postgres rest :
  Database.DATABASE_URL (Some ("postgres://" ++ rest)%string)
  = ("postgresql://" ++ rest)%string.
Proof.
  unfold Database.DATABASE_URL, Database.getenv, Database.startswith.
  rewrite prefix_append. unfold Database.replace_first.
  destruct rest; reflexivity.
Qed.

Lemma database_url_other url :
  Database.startswith url "postgres://" = false ->
  Database.DATABASE_URL (Some url) = url.
Proof.
  intros H. unfold Database.DATABASE_URL, Database.getenv. now rewrite H.
Qed.

(** The URL that the engine is created with never starts with
    [postgres://]: such a value of the environment variable has that
    scheme replaced by [postgresql://] and the rest kept, any other value
    is taken as it is, and an unset variable gives the SQLite file.
    Normalizing twice changes nothing more. *)
Theorem database_url_normalized :
  forall env,
    Database.startswith (Database.DATABASE_URL env) "postgres://" = false
    /\ (forall rest,
          env = Some ("postgres://" ++ rest)%string ->
          Database.DATABASE_URL env = ("postgresql://" ++ rest)%string)
    /\ (forall url,
          env = Some url -> Database.startswith url "postgres://" = false ->
          Database.DATABASE_URL env = url)
    /\ (env = None ->
        Database.DATABASE_URL env = "sqlite:///./workout_tracker.db")
    /\ Database.DATABASE_URL (Some (Database.DATABASE_URL env))
       = Database.DATABASE_URL env.
Proof.
  intros env.
  assert (Hnot : Database.startswith (Database.DATABASE_URL env) "postgres://"
                 = false).
  { destruct env as [url|]; [|reflexivity].
    destruct (Database.startswith url "postgres://") eqn:E.
    - unfold Database.startswith in E. apply prefix_skip in E.
      rewrite E, database_url_postgres. reflexivity.
    - now rewrite database_url_other. }
  split; [exact Hnot|]. split; [intros rest ->; apply database_url_postgres|].
  split; [intros url -> H; now apply database_url_other|].
  split; [intros ->; reflexivity|].
  now apply database_url_other.
Qed.

(** The SQLite-only [check_same_thread] argument is passed for the default
    URL, and whenever it is passed the URL starts with [sqlite]; a
    [postgres://] or [postgresql://] URL never receives it. *)
Theorem connect_args_only_for_sqlite :
  Database.connect_args None = [("check_same_thread", false)]
  /\ (forall rest,
        Database.connect_args (Some ("postgres://" ++ rest)%string) = []
        /\ Database.connect_args (Some ("postgresql://" ++ rest)%string) = [])
  /\ (forall env,
        Database.connect_args env <> [] ->
        exists rest,
          Database.DATABASE_URL env = ("sqlite" ++ rest)%string
          /\ Database.connect_args env = [("check_same_thread", false)]).
Proof.
  split; [reflexivity|]. split.
  - intros rest. split.
    + unfold Database.connect_args.
      rewrite database_url_postgres. reflexivity.
    + unfold Database.connect_args, Database.DATABASE_URL, Database.getenv.
      reflexivity.
  - intros env H. unfold Database.connect_args in *.
    destruct (Database.startswith (Database.DATABASE_URL env) "sqlite") eqn:E;
      [|congruence].
    unfold Database.startswith in E. apply prefix_skip in E.
    eexists. split; [exact E|reflexivity].
Qed.

(** ** Logging in *)

(** With distinct emails in the users table, [login] returns a token
    exactly when a stored user has the given email and [verify_password]
    accepts the password against that user's hash, and the token is the
    bearer token made for that user's id.  Every failure is the same 401
    with the [WWW-Authenticate: Bearer] header, whether the email is
    unknown or the password is wrong. *)
Theorem login_checks_credentials :
  forall (verify_password : string -> string -> bool)
         (create_access_token : string -> Z -> string) (minutes : Z)
         form_data db,
    emails_unique db ->
    (forall token,
        login verify_password create_access_token minutes form_data db
        = inr token
        <->
        exists u, In u (users db)
          /\ User.email u = OAuth2PasswordRequestForm.username form_data
          /\ verify_password (OAuth2PasswordRequestForm.password form_data)
               (User.hashed_password u) = true
          /\ token = Token.mk (create_access_token (str (User.id u)) minutes)
                       "bearer")
    /\ (forall err,
          login verify_password create_access_token minutes form_data db
          = inl err ->
          err = Unauthorized.mk 401
                  "メールアドレスまたはパスワードが間違っています"
                  [("WWW-Authenticate", "Bearer")]).
Proof.
  intros verify create minutes form db Hnd. unfold login.
  destruct (hd_error (filter (fun u => String.eqb (User.email u)
                                         (OAuth2PasswordRequestForm.username form))
                        (users db))) as [u|] eqn:Hq.
  - pose proof (hd_error_filter_inv _ _ _ Hq) as [Hu He].
    apply String.eqb_eq in He.
    split.
    + intros token. split.
      * destruct (verify _ (User.hashed_password u)) eqn:Hv; simpl;
          [|discriminate].
        intros H. injection H as <-. exists u. auto.
      * intros (u' & Hu' & He' & Hv' & ->).
        assert (u' = u).
        { apply (NoDup_map_inj User.email (users db)); auto. congruence. }
        subst u'. rewrite Hv'. reflexivity.
    + intros err. destruct (verify _ (User.hashed_password u)); simpl;
        [discriminate|congruence].
  - split.
    + intros token. split; [discriminate|].
      intros (u & Hu & He & _).
      pose proof (hd_error_filter_none_inv _ _ Hq u Hu) as Hf.
      simpl in Hf. rewrite He, String.eqb_refl in Hf. discriminate.
    + intros err H. congruence.
Qed.

Lemma example_db6_emails_unique : emails_unique Example.db6.
Proof.
  unfold emails_unique. simpl.
  repeat (constructor; [simpl; intuition discriminate|]); constructor.
Qed.

Lemma login_checks_credentials_witness :
  emails_unique Example.db6
  /\ login (fun pw hashed => String.eqb (Example.hash pw) hashed)
       (fun sub minutes => sub) 30
       (OAuth2PasswordRequestForm.mk "bob@example.com" "battery staple")
       Example.db6
     = inr (Token.mk "2" "bearer").
Proof.
  split; [exact example_db6_emails_unique|].
  apply (proj1 (login_checks_credentials
                  (fun pw hashed => String.eqb (Example.hash pw) hashed)
                  (fun sub minutes => sub) 30
                  (OAuth2PasswordRequestForm.mk "bob@example.com"
                     "battery staple")
                  Example.db6 example_db6_emails_unique) (Token.mk "2" "bearer")).
  exists Example.bob. repeat split; simpl; auto.
Defined.

(** After a registration that succeeded, logging in with the registered
    email and password is decided by [verify_password] on the password and
    the hash that [get_password_hash] made of it: accepted, the token is
    the one made for the new user's id; refused, the answer is the 401. *)
Theorem register_then_login :
  forall (h : string -> string)
         (verify_password : string -> string -> bool)
         (create_access_token : string -> Z -> string) (minutes : Z)
         user fate db u after,
    request (register h user) fate db = (inr u, after) ->
    login verify_password create_access_token minutes
      (OAuth2PasswordRequestForm.mk (UserCreate.email user)
         (UserCreate.password user))
      after
    = if verify_password (UserCreate.password user)
           (h (UserCreate.password user))
      then inr (Token.mk (create_access_token (str (User.id u)) minutes)
                  "bearer")
      else inl (Unauthorized.mk 401
                  "メールアドレスまたはパスワードが間違っています"
                  [("WWW-Authenticate", "Bearer")]).
Proof.
  intros h verify create minutes user fate db u after Hreq.
  destruct (hd_error (filter (fun x => String.eqb (User.email x)
                                         (UserCreate.email user))
                        (users db))) as [x|] eqn:Hq.
  { apply hd_error_filter_inv in Hq as [Hx Hp]. apply String.eqb_eq in Hp.
    rewrite request_register_duplicate in Hreq by eauto. discriminate. }
  assert (Hnew : forall x, In x (users db) ->
                   User.email x <> UserCreate.email user).
  { intros x Hx. apply String.eqb_neq.
    exact (hd_error_filter_none_inv _ _ Hq x Hx). }
  rewrite (request_register_new h user fate db Hnew) in Hreq.
  destruct (commits fate); [destruct (commits (tl fate))|]; try discriminate.
  injection Hreq as <- <-.
  unfold login. simpl. rewrite filter_app.
  rewrite (filter_nil_of _ (users db)).
  2:{ intros x Hx. apply String.eqb_neq. now apply Hnew. }
  simpl. rewrite String.eqb_refl. simpl.
  destruct (verify _ _); reflexivity.
Qed.

Lemma register_then_login_witness :
  request (register Example.hash Example.bob_form) [] Example.db1
  = (inr Example.bob, Example.db2)
  /\ login (fun pw hashed => String.eqb (Example.hash pw) hashed)
       (fun sub minutes => sub) 30
       (OAuth2PasswordRequestForm.mk "bob@example.com" "battery staple")
       Example.db2
     = inr (Token.mk "2" "bearer").
Proof.
  assert (H : request (register Example.hash Example.bob_form) [] Example.db1
              = (inr Example.bob, Example.db2)) by (vm_compute; reflexivity).
  split; [exact H|].
  exact (register_then_login Example.hash
           (fun pw hashed => String.eqb (Example.hash pw) hashed)
           (fun sub minutes => sub) 30 Example.bob_form [] Example.db1
           Example.bob Example.db2 H).
Defined.

(** ** More invariants of the reachable databases *)

Lemma emails_unique_serve h c fate db :
  emails_unique db -> emails_unique (serve h c fate db).
Proof.
  intros Hinv.
  apply serve_cases; try assumption; unfold emails_unique; simpl;
    try (intros; exact Hinv).
  intros user _ Hnew. rewrite map_app. simpl.
  assert (Hnd : NoDup (map User.email (users db) ++ [UserCreate.email user])).
  { apply NoDup_app; [exact Hinv|repeat constructor; intros []|].
    intros x Hx [<-|[]]. apply in_map_iff in Hx as (u & He & Hu).
    now apply (Hnew u Hu). }
  split; exact Hnd.
Qed.

Lemma unlinked_row_kept cid xs es e :
  In e es ->
  exists e', In e' (map (clear_category cid) (unlink_all xs es))
    /\ Exercise.id e' = Exercise.id e
    /\ Exercise.user_id e' = Exercise.user_id e.
Proof.
  intros He. rewrite unlink_all_pointwise, map_map.
  eexists. split; [apply in_map_iff; exists e; split; [reflexivity|exact He]|].
  rewrite clear_category_id, clear_category_user_id.
  destruct (existsb _ xs); auto.
Qed.

Lemma record_links_owned_serve h c fate db :
  record_links_owned db -> record_links_owned (serve h c fate db).
Proof.
  intros Hinv.
  apply serve_cases; try assumption; unfold record_links_owned; simpl.
  - intros user _ _. split; [exact Hinv|].
    intros r eid Hr Hid. destruct (Hinv r eid Hr Hid) as (e & He & H1 & H2).
    destruct (seed_appends default_exercises
                (fresh_id (map User.id (users db))) (exercises db))
      as (tail & Heq & _).
    exists e. rewrite Heq. split; [apply in_or_app; now left|auto].
  - intros category u _. exact Hinv.
  - intros cid u x _ _ _ _ r eid Hr Hid.
    destruct (Hinv r eid Hr Hid) as (e & He & H1 & H2).
    destruct (unlinked_row_kept cid
                (filter (fun e => option_Z_eqb (Exercise.category_id e) (Some cid))
                   (exercises db))
                (exercises db) e He) as (e' & He' & Hi & Hu).
    exists e'. split; [exact He'|]. split; congruence.
  - intros exercise u _ r eid Hr Hid.
    destruct (Hinv r eid Hr Hid) as (e & He & H1 & H2).
    exists e. split; [apply in_or_app; now left|auto].
  - intros eid upd u e _ _ _ _ r k Hr Hid.
    destruct (Hinv r k Hr Hid) as (e0 & He0 & H1 & H2).
    exists (assign_category eid (ExerciseUpdate.category_id upd) e0).
    split; [now apply in_map|].
    now rewrite assign_category_id, assign_category_user_id.
  - intros eid u e _ _ _ _ r' k Hr' Hid.
    apply in_map_iff in Hr' as (r & <- & Hr).
    unfold clear_exercise in Hid |- *.
    destruct (option_Z_eqb (WorkoutRecord.exercise_id r) (Some eid)) eqn:E;
      [discriminate Hid|].
    destruct (Hinv r k Hr Hid) as (e0 & He0 & H1 & H2).
    exists e0. split; [|auto].
    apply filter_In. split; [exact He0|].
    apply negb_true_iff, Z.eqb_neq. intros Heq.
    rewrite Hid in E. simpl in E. apply Z.eqb_neq in E. congruence.
  - intros record u e v _ He Hid Hu _ r k Hr Hk.
    apply in_app_or in Hr as [Hr|[<-|[]]]; [now apply Hinv|].
    simpl in Hk |- *. injection Hk as <-. eauto.
  - intros rid u r _ _ _ _ r' k Hr' Hk.
    apply filter_In in Hr' as [Hr' _]. now apply Hinv.
Qed.

Lemma users_grow_serve h c fate db :
  exists tail, users (serve h c fate db) = users db ++ tail.
Proof.
  apply (serve_cases h (fun after => exists tail, users after = users db ++ tail));
    simpl; try (intros; exists []; now rewrite app_nil_r).
  intros user _ _. split; eexists; reflexivity.
Qed.

(** In every reachable database the primary keys of each table are
    pairwise distinct, the emails of the users are pairwise distinct, and
    every category, exercise and record belongs to a stored user. *)
Theorem reachable_keys_emails_owners :
  forall (h : string -> string) db,
    reachable h db ->
    pk_unique db /\ emails_unique db /\ owners_stored db.
Proof.
  intros h db Hreach.
  split; [now apply (reachable_pk_unique h)|].
  split; [|now apply (reachable_owners_stored h)].
  induction Hreach as [|c fate db _ IH _]; [constructor|].
  now apply emails_unique_serve.
Qed.

Lemma reachable_keys_emails_owners_witness :
  reachable Example.hash Example.db6
  /\ pk_unique Example.db6 /\ emails_unique Example.db6
  /\ owners_stored Example.db6.
Proof.
  split; [exact example_db6_reachable|].
  exact (reachable_keys_emails_owners Example.hash Example.db6
           example_db6_reachable).
Defined.

(** In every reachable database each record with a non-null [exercise_id]
    references a stored exercise, and that exercise belongs to the owner of
    the record: [create_record] links only to an exercise of the caller,
    and [delete_exercise] clears the links to the exercise it deletes. *)
Theorem reachable_record_links_owned :
  forall (h : string -> string) db,
    reachable h db -> record_links_owned db.
Proof.
  intros h db Hreach.
  induction Hreach as [|c fate db _ IH _]; [intros r eid []|].
  now apply record_links_owned_serve.
Qed.

Lemma reachable_record_links_owned_witness :
  reachable Example.hash Example.db6
  /\ exists e, In e (exercises Example.db6)
       /\ Exercise.id e = 7
       /\ Exercise.user_id e = WorkoutRecord.user_id Example.logged.
Proof.
  split; [exact example_db6_reachable|].
  apply (reachable_record_links_owned Example.hash Example.db6
           example_db6_reachable Example.logged 7);
    [simpl; auto|reflexivity].
Defined.

(** No call removes or alters a stored user: along any run the users
    table only grows at its end, so a user keeps the id, the email and the
    password hash given at registration. *)
Theorem users_never_change :
  forall (h : string -> string) start db,
    reaches h start db ->
    exists tail, users db = users start ++ tail.
Proof.
  intros h start db Hrun.
  induction Hrun as [|c fate db _ (tail & IH) _].
  - exists []. now rewrite app_nil_r.
  - destruct (users_grow_serve h c fate db) as (tail' & ->).
    exists (tail ++ tail'). now rewrite IH, app_assoc.
Qed.

Lemma users_never_change_witness :
  reaches Example.hash Example.db2 Example.db6
  /\ exists tail, users Example.db6 = users Example.db2 ++ tail.
Proof.
  assert (Hrun : reaches Example.hash Example.db2 Example.db6).
  { change Example.db6
      with (serve Example.hash (CreateRecord Example.bench Example.bob) []
              Example.db5).
    apply reaches_serve; [|unfold authenticated; simpl; tauto].
    change Example.db5
      with (serve Example.hash (CreateExercise Example.borrowed Example.alice)
              [] Example.db4).
    apply reaches_serve; [|unfold authenticated; simpl; tauto].
    change Example.db4
      with (serve Example.hash (CreateExercise Example.lunge Example.bob) []
              Example.db3).
    apply reaches_serve; [|unfold authenticated; simpl; tauto].
    change Example.db3
      with (serve Example.hash (CreateCategory Example.legs Example.bob) []
              Example.db2).
    apply reaches_serve; [apply reaches_refl|].
    unfold authenticated; simpl; tauto. }
  split; [exact Hrun|].
  exact (users_never_change Example.hash Example.db2 Example.db6 Hrun).
Defined.

(** ** Creating, listing, updating and deleting *)

Lemma lookup_owned_row {A} (id user_id : A -> Z) (l : list A) (a : A) (uid : Z) :
  NoDup (map id l) -> In a l -> user_id a = uid ->
  hd_error (filter (fun x => (id x =? id a) && (user_id x =? uid)) l) = Some a.
Proof.
  intros Hnd Ha Hu.
  destruct (hd_error_filter_some
              (fun x => (id x =? id a) && (user_id x =? uid)) l a Ha)
    as (y & Hy & Hin & Hp).
  { rewrite Hu, !Z.eqb_refl. reflexivity. }
  apply andb_true_iff in Hp as [Hid _]. apply Z.eqb_eq in Hid.
  rewrite Hy. f_equal. now apply (NoDup_map_inj id l).
Qed.

Lemma filter_snoc_other {A} (p : A -> bool) (l : list A) (a : A) :
  p a = false -> filter p (l ++ [a]) = filter p l.
Proof. intros H. rewrite filter_app. simpl. rewrite H. apply app_nil_r. Qed.

Lemma filter_snoc_own {A} (p : A -> bool) (l : list A) (a : A) :
  p a = true -> filter p (l ++ [a]) = filter p l ++ [a].
Proof. intros H. rewrite filter_app. simpl. now rewrite H. Qed.

(** A committed [create_category] returns a category with the requested
    name, owned by the caller, under a key that no stored category has;
    [get_categories] then lists it last for the caller and lists for
    every other user what it listed before.  A refused commit stores
    nothing. *)
Theorem create_category_then_listed :
  forall category u fate db,
    (commits fate = true ->
     exists c,
       fst (request (create_category category u) fate db) = inr c
       /\ Category.name c = CategoryCreate.name category
       /\ Category.user_id c = User.id u
       /\ ~ In (Category.id c) (map Category.id (categories db))
       /\ (forall fate',
             fst (request (get_categories u) fate'
                    (snd (request (create_category category u) fate db)))
             = inr (filter (fun x => Category.user_id x =? User.id u)
                      (categories db) ++ [c]))
       /\ (forall u' fate',
             User.id u' <> User.id u ->
             fst (request (get_categories u') fate'
                    (snd (request (create_category category u) fate db)))
             = fst (request (get_categories u') fate' db)))
    /\ (commits fate = false ->
        request (create_category category u) fate db
        = (inl Py.OperationalError, db)).
Proof.
  intros category u fate db. rewrite request_create_category.
  split; intros ->; [|reflexivity].
  eexists. split; [reflexivity|]. cbn [fst snd].
  split; [reflexivity|]. split; [reflexivity|].
  split; [apply fresh_id_new|]. split.
  - intros fate'. rewrite request_get_categories. cbn [fst categories].
    rewrite filter_snoc_own; [reflexivity|]. simpl. apply Z.eqb_refl.
  - intros u' fate' Hne. rewrite !request_get_categories. cbn [fst categories].
    rewrite filter_snoc_other; [reflexivity|]. simpl.
    apply Z.eqb_neq. congruence.
Qed.


(** A committed [create_record] on an exercise of the caller returns a
    record dated and measured as requested, linked to that exercise and
    owned by the caller, with no memo, under a key that no stored record
    has; [get_records] then lists it last for the caller and lists for
    every other user what it listed before. *)
Theorem create_record_then_listed :
  forall record u fate db r after,
    request (create_record record u) fate db = (inr r, after) ->
    WorkoutRecord.date r = RecordCreate.date record
    /\ WorkoutRecord.exercise_id r = Some (RecordCreate.exercise_id record)
    /\ WorkoutRecord.user_id r = User.id u
    /\ WorkoutRecord.memo r = None
    /\ ~ In (WorkoutRecord.id r) (map WorkoutRecord.id (workout_records db))
    /\ (exists e, In e (exercises db)
          /\ Exercise.id e = RecordCreate.exercise_id record
          /\ Exercise.user_id e = User.id u
          /\ WorkoutRecord.exercise_name r = Exercise.name e)
    /\ (forall fate',
          fst (request (get_records u) fate' after)
          = inr (filter (fun x => WorkoutRecord.user_id x =? User.id u)
                   (workout_records db) ++ [r]))
    /\ (forall u' fate',
          User.id u' <> User.id u ->
          fst (request (get_records u') fate' after)
          = fst (request (get_records u') fate' db)).
Proof.
  intros record u fate db r after Hreq.
  destruct (request_create_record_returns record u fate db r after Hreq)
    as (e & v & He & Hid & Hu & _ & _ & _ & _ & -> & ->).
  split; [reflexivity|]. split; [reflexivity|]. split; [reflexivity|].
  split; [reflexivity|]. split; [apply fresh_id_new|].
  split; [exists e; auto|]. split.
  - intros fate'. rewrite request_get_records. cbn [fst workout_records].
    rewrite filter_snoc_own; [reflexivity|]. simpl. apply Z.eqb_refl.
  - intros u' fate' Hne. rewrite !request_get_records. cbn [fst workout_records].
    rewrite filter_snoc_other; [reflexivity|]. simpl.
    apply Z.eqb_neq. congruence.
Qed.

Lemma create_record_then_listed_witness :
  request (create_record Example.bench Example.bob) [] Example.db5
  = (inr Example.logged, Example.db6)
  /\ fst (request (get_records Example.bob) [] Example.db6)
     = inr [Example.logged]
  /\ fst (request (get_records Example.alice) [] Example.db6) = inr [].
Proof.
  assert (Hreq : request (create_record Example.bench Example.bob) [] Example.db5
                 = (inr Example.logged, Example.db6))
    by (vm_compute; reflexivity).
  destruct (create_record_then_listed Example.bench Example.bob []
              Example.db5 Example.logged Example.db6 Hreq)
    as (_ & _ & _ & _ & _ & _ & Hown & Hother).
  split; [exact Hreq|]. split.
  - exact (Hown []).
  - rewrite (Hother Example.alice []); [reflexivity|discriminate].
Defined.




(** A committed [delete_exercise] on an exercise of the caller removes that
    exercise and no other; every record stays stored under its key with its
    [exercise_name] and [volume], none of them linked to the deleted
    exercise any more; users and categories are untouched; and deleting
    the same id again answers 404. *)
Theorem delete_exercise_removes_one :
  forall e u fate db,
    pk_unique db ->
    In e (exercises db) ->
    Exercise.user_id e = User.id u ->
    commits fate = true ->
    let after := snd (request (delete_exercise (Exercise.id e) u) fate db) in
    fst (request (delete_exercise (Exercise.id e) u) fate db)
    = inr "削除しました"
    /\ (forall x, In x (exercises after) <-> In x (exercises db) /\ x <> e)
    /\ map WorkoutRecord.id (workout_records after)
       = map WorkoutRecord.id (workout_records db)
    /\ map WorkoutRecord.exercise_name (workout_records after)
       = map WorkoutRecord.exercise_name (workout_records db)
    /\ map WorkoutRecord.volume (workout_records after)
       = map WorkoutRecord.volume (workout_records db)
    /\ (forall r, In r (workout_records after) ->
          WorkoutRecord.exercise_id r <> Some (Exercise.id e))
    /\ users after = users db
    /\ categories after = categories db
    /\ (forall fate',
          request (delete_exercise (Exercise.id e) u) fate' after
          = (inl (Py.HTTPException 404 "エクササイズが見つかりません"), after)).
Proof.
  intros e u fate db Hpk He Hu Hfate after.
  pose proof Hpk as (_ & _ & Hnd & _).
  pose proof (lookup_owned_row Exercise.id Exercise.user_id (exercises db) e
                (User.id u) Hnd He Hu) as Hq.
  pose proof (request_delete_exercise_found (Exercise.id e) u fate db e Hq)
    as Hrun.
  rewrite Hfate in Hrun. unfold after. rewrite Hrun. cbn [fst snd].
  cbn [users categories exercises workout_records].
  split; [reflexivity|]. split.
  { intros x. rewrite filter_In, negb_true_iff, Z.eqb_neq. split.
    - intros [Hx Hne]. split; [exact Hx|]. congruence.
    - intros [Hx Hne]. split; [exact Hx|]. intros Hid. apply Hne.
      now apply (NoDup_map_inj Exercise.id (exercises db)). }
  split.
  { rewrite map_map. apply map_ext. intros r. apply clear_exercise_id. }
  split.
  { rewrite map_map. apply map_ext. intros r. unfold clear_exercise.
    destruct (option_Z_eqb _ _); reflexivity. }
  split.
  { rewrite map_map. apply map_ext. intros r. unfold clear_exercise.
    destruct (option_Z_eqb _ _); reflexivity. }
  split.
  { intros r' Hr'. apply in_map_iff in Hr' as (r & <- & _).
    unfold clear_exercise.
    destruct (option_Z_eqb (WorkoutRecord.exercise_id r) (Some (Exercise.id e)))
      eqn:E; [simpl; discriminate|].
    intros H. apply option_Z_eqb_eq in H. congruence. }
  split; [reflexivity|]. split; [reflexivity|].
  intros fate'. apply request_delete_exercise_missing.
  cbn [exercises]. intros x Hx Hid. apply filter_In in Hx as [_ Hx].
  apply negb_true_iff, Z.eqb_neq in Hx. contradiction.
Qed.

Lemma delete_exercise_removes_one_witness :
  pk_unique Example.db6
  /\ map WorkoutRecord.exercise_name
       (workout_records
          (snd (request (delete_exercise 7 Example.bob) [] Example.db6)))
     = map WorkoutRecord.exercise_name (workout_records Example.db6)
  /\ request (delete_exercise 7 Example.bob) []
       (snd (request (delete_exercise 7 Example.bob) [] Example.db6))
     = (inl (Py.HTTPException 404 "エクササイズが見つかりません"),
        snd (request (delete_exercise 7 Example.bob) [] Example.db6)).
Proof.
  assert (He : In (Exercise.mk 7 "ベンチプレス" None 2) (exercises Example.db6))
    by (simpl; auto 20).
  destruct (delete_exercise_removes_one (Exercise.mk 7 "ベンチプレス" None 2)
              Example.bob [] Example.db6 example_db6_pk_unique He eq_refl
              eq_refl) as (_ & _ & _ & Hname & _ & _ & _ & _ & Hagain).
  split; [exact example_db6_pk_unique|]. split.
  - exact Hname.
  - exact (Hagain []).
Defined.

(** A committed [delete_record] on a record of the caller removes that
    record and no other, leaves the three other tables untouched, and
    deleting the same id again answers 404. *)
Theorem delete_record_removes_one :
  forall r u fate db,
    pk_unique db ->
    In r (workout_records db) ->
    WorkoutRecord.user_id r = User.id u ->
    commits fate = true ->
    let after := snd (request (delete_record (WorkoutRecord.id r) u) fate db) in
    fst (request (delete_record (WorkoutRecord.id r) u) fate db)
    = inr "削除しました"
    /\ (forall x, In x (workout_records after)
                  <-> In x (workout_records db) /\ x <> r)
    /\ users after = users db
    /\ categories after = categories db
    /\ exercises after = exercises db
    /\ (forall fate',
          request (delete_record (WorkoutRecord.id r) u) fate' after
          = (inl (Py.HTTPException 404 "記録が見つかりません"), after)).
Proof.
  intros r u fate db Hpk Hr Hu Hfate after.
  pose proof Hpk as (_ & _ & _ & Hnd).
  pose proof (lookup_owned_row WorkoutRecord.id WorkoutRecord.user_id
                (workout_records db) r (User.id u) Hnd Hr Hu) as Hq.
  pose proof (request_delete_record_found (WorkoutRecord.id r) u fate db r Hq)
    as Hrun.
  rewrite Hfate in Hrun. unfold after. rewrite Hrun. cbn [fst snd].
  cbn [users categories exercises workout_records].
  split; [reflexivity|]. split.
  { intros x. rewrite filter_In, negb_true_iff, Z.eqb_neq. split.
    - intros [Hx Hne]. split; [exact Hx|]. congruence.
    - intros [Hx Hne]. split; [exact Hx|]. intros Hid. apply Hne.
      now apply (NoDup_map_inj WorkoutRecord.id (workout_records db)). }
  split; [reflexivity|]. split; [reflexivity|]. split; [reflexivity|].
  intros fate'. apply request_delete_record_missing.
  cbn [workout_records]. intros x Hx Hid. apply filter_In in Hx as [_ Hx].
  apply negb_true_iff, Z.eqb_neq in Hx. contradiction.
Qed.

Lemma delete_record_removes_one_witness :
  pk_unique Example.db6
  /\ fst (request (delete_record 1 Example.bob) [] Example.db6)
     = inr "削除しました"
  /\ request (delete_record 1 Example.bob) []
       (snd (request (delete_record 1 Example.bob) [] Example.db6))
     = (inl (Py.HTTPException 404 "記録が見つかりません"),
        snd (request (delete_record 1 Example.bob) [] Example.db6)).
Proof.
  assert (Hr : In Example.logged (workout_records Example.db6))
    by (simpl; auto).
  destruct (delete_record_removes_one Example.logged Example.bob []
              Example.db6 example_db6_pk_unique Hr eq_refl eq_refl)
    as (Hres & _ & _ & _ & _ & Hagain).
  split; [exact example_db6_pk_unique|]. split.
  - exact Hres.
  - exact (Hagain []).
Defined.

(** ** The ids of another user *)

(** C1: when the user U1 calls an id-addressed operation on the id of a row
    that another user U2 owns, the answer is the 404 of that operation and
    the database is untouched.  It is the very answer that U1 is given for
    the same id once U2 has deleted the row, and for any id that no row
    carries.  This holds for [delete_category], [update_exercise],
    [delete_exercise], [delete_record] and the exercise lookup of
    [create_record].  The ids compared are ints that SQLite binds, as the
    key of a stored row is: an int beyond 64 bits makes the driver raise
    before any row is looked up. *)
Theorem foreign_ids_not_found :
  forall (h : string -> string) db u1 u2 fate,
    pk_unique db ->
    User.id u1 <> User.id u2 ->
    (forall c, In c (categories db) -> Category.user_id c = User.id u2 ->
       request (delete_category (Category.id c) u1) fate db
       = (inl (Py.HTTPException 404 "カテゴリが見つかりません"), db))
    /\ (forall e upd, In e (exercises db) -> Exercise.user_id e = User.id u2 ->
       request (update_exercise (Exercise.id e) upd u1) fate db
       = (inl (Py.HTTPException 404 "エクササイズが見つかりません"), db))
    /\ (forall e, In e (exercises db) -> Exercise.user_id e = User.id u2 ->
       request (delete_exercise (Exercise.id e) u1) fate db
       = (inl (Py.HTTPException 404 "エクササイズが見つかりません"), db))
    /\ (forall r, In r (workout_records db) ->
       WorkoutRecord.user_id r = User.id u2 ->
       request (delete_record (WorkoutRecord.id r) u1) fate db
       = (inl (Py.HTTPException 404 "記録が見つかりません"), db))
    /\ (forall e record, In e (exercises db) ->
       Exercise.user_id e = User.id u2 ->
       RecordCreate.exercise_id record = Exercise.id e ->
       fits_int64 (Exercise.id e) = true ->
       request (create_record record u1) fate db
       = (inl (Py.HTTPException 404 "エクササイズが見つかりません"), db))
    /\ (forall c, In c (categories db) -> Category.user_id c = User.id u2 ->
       let gone := serve h (DeleteCategory (Category.id c) u2) [] db in
       ~ In (Category.id c) (map Category.id (categories gone))
       /\ request (delete_category (Category.id c) u1) fate gone
          = (inl (Py.HTTPException 404 "カテゴリが見つかりません"), gone))
    /\ (forall e, In e (exercises db) -> Exercise.user_id e = User.id u2 ->
       let gone := serve h (DeleteExercise (Exercise.id e) u2) [] db in
       ~ In (Exercise.id e) (map Exercise.id (exercises gone))
       /\ (forall upd,
             request (update_exercise (Exercise.id e) upd u1) fate gone
             = (inl (Py.HTTPException 404 "エクササイズが見つかりません"),
                gone))
       /\ request (delete_exercise (Exercise.id e) u1) fate gone
          = (inl (Py.HTTPException 404 "エクササイズが見つかりません"), gone)
       /\ (forall record,
             RecordCreate.exercise_id record = Exercise.id e ->
             fits_int64 (Exercise.id e) = true ->
             request (create_record record u1) fate gone
             = (inl (Py.HTTPException 404 "エクササイズが見つかりません"),
                gone)))
    /\ (forall r, In r (workout_records db) ->
       WorkoutRecord.user_id r = User.id u2 ->
       let gone := serve h (DeleteRecord (WorkoutRecord.id r) u2) [] db in
       ~ In (WorkoutRecord.id r) (map WorkoutRecord.id (workout_records gone))
       /\ request (delete_record (WorkoutRecord.id r) u1) fate gone
          = (inl (Py.HTTPException 404 "記録が見つかりません"), gone))
    /\ (forall k, ~ In k (map Category.id (categories db)) ->
       fits_int64 k = true ->
       request (delete_category k u1) fate db
       = (inl (Py.HTTPException 404 "カテゴリが見つかりません"), db))
    /\ (forall k upd, ~ In k (map Exercise.id (exercises db)) ->
       fits_int64 k = true ->
       request (update_exercise k upd u1) fate db
       = (inl (Py.HTTPException 404 "エクササイズが見つかりません"), db))
    /\ (forall k, ~ In k (map Exercise.id (exercises db)) ->
       fits_int64 k = true ->
       request (delete_exercise k u1) fate db
       = (inl (Py.HTTPException 404 "エクササイズが見つかりません"), db))
    /\ (forall k, ~ In k (map WorkoutRecord.id (workout_records db)) ->
       fits_int64 k = true ->
       request (delete_record k u1) fate db
       = (inl (Py.HTTPException 404 "記録が見つかりません"), db))
    /\ (forall record,
       ~ In (RecordCreate.exercise_id record) (map Exercise.id (exercises db)) ->
       fits_int64 (RecordCreate.exercise_id record) = true ->
       request (create_record record u1) fate db
       = (inl (Py.HTTPException 404 "エクササイズが見つかりません"), db)).
Proof.
  intros h db u1 u2 fate Hpk Hneq.
  pose proof Hpk as (Hu & Hc & He & Hr).
  assert (Hne : forall x, x = User.id u2 -> x <> User.id u1) by (intros; subst; auto).
  split.
  { intros c Hin Ho. apply request_delete_category_missing.
    apply (owned_by_other Category.id Category.user_id); auto. }
  split.
  { intros e upd Hin Ho. apply request_update_exercise_missing.
    apply (owned_by_other Exercise.id Exercise.user_id); auto. }
  split.
  { intros e Hin Ho. apply request_delete_exercise_missing.
    apply (owned_by_other Exercise.id Exercise.user_id); auto. }
  split.
  { intros r Hin Ho. apply request_delete_record_missing.
    apply (owned_by_other WorkoutRecord.id WorkoutRecord.user_id); auto. }
  split.
  { intros e record Hin Ho Hid Hfit. apply request_create_record_missing.
    + now rewrite Hid.
    + rewrite Hid. apply (owned_by_other Exercise.id Exercise.user_id); auto. }
  split.
  { intros c Hin Ho gone.
    assert (Hgone : ~ In (Category.id c) (map Category.id (categories gone))).
    { unfold gone. cbn [serve].
      rewrite (request_delete_category_owned db u2 c [] Hpk Hin Ho).
      cbn [commits hd snd]. unfold without_category. cbn [categories].
      intros H. apply in_map_iff in H as (x & Hid & Hx).
      apply filter_In in Hx as [_ Hx].
      apply negb_true_iff, Z.eqb_neq in Hx. contradiction. }
    split; [exact Hgone|]. apply request_delete_category_missing.
    now apply (absent_key Category.id Category.user_id). }
  split.
  { intros e Hin Ho gone.
    assert (Hgone : ~ In (Exercise.id e) (map Exercise.id (exercises gone))).
    { unfold gone. cbn [serve].
      rewrite (request_delete_exercise_found (Exercise.id e) u2 [] db e
                 (lookup_owned_row Exercise.id Exercise.user_id (exercises db)
                    e (User.id u2) He Hin Ho)).
      cbn [commits hd snd exercises].
      intros H. apply in_map_iff in H as (x & Hid & Hx).
      apply filter_In in Hx as [_ Hx].
      apply negb_true_iff, Z.eqb_neq in Hx. contradiction. }
    split; [exact Hgone|]. split; [|split].
    - intros upd. apply request_update_exercise_missing.
      now apply (absent_key Exercise.id Exercise.user_id).
    - apply request_delete_exercise_missing.
      now apply (absent_key Exercise.id Exercise.user_id).
    - intros record Hid Hfit. apply request_create_record_missing.
      + now rewrite Hid.
      + rewrite Hid. now apply (absent_key Exercise.id Exercise.user_id). }
  split.
  { intros r Hin Ho gone.
    assert (Hgone : ~ In (WorkoutRecord.id r)
                      (map WorkoutRecord.id (workout_records gone))).
    { unfold gone. cbn [serve].
      rewrite (request_delete_record_found (WorkoutRecord.id r) u2 [] db r
                 (lookup_owned_row WorkoutRecord.id WorkoutRecord.user_id
                    (workout_records db) r (User.id u2) Hr Hin Ho)).
      cbn [commits hd snd workout_records].
      intros H. apply in_map_iff in H as (x & Hid & Hx).
      apply filter_In in Hx as [_ Hx].
      apply negb_true_iff, Z.eqb_neq in Hx. contradiction. }
    split; [exact Hgone|]. apply request_delete_record_missing.
    now apply (absent_key WorkoutRecord.id WorkoutRecord.user_id). }
  split.
  { intros k Hk _. apply request_delete_category_missing.
    now apply (absent_key Category.id Category.user_id). }
  split.
  { intros k upd Hk _. apply request_update_exercise_missing.
    now apply (absent_key Exercise.id Exercise.user_id). }
  split.
  { intros k Hk _. apply request_delete_exercise_missing.
    now apply (absent_key Exercise.id Exercise.user_id). }
  split.
  { intros k Hk _. apply request_delete_record_missing.
    now apply (absent_key WorkoutRecord.id WorkoutRecord.user_id). }
  intros record Hk Hfit. apply request_create_record_missing; [exact Hfit|].
  now apply (absent_key Exercise.id Exercise.user_id).
Qed.

Lemma foreign_ids_not_found_witness :
  pk_unique Example.db6
  /\ User.id Example.alice <> User.id Example.bob
  /\ request (delete_category 1 Example.alice) [] Example.db6
     = (inl (Py.HTTPException 404 "カテゴリが見つかりません"), Example.db6)
  /\ request (delete_record 1 Example.alice) [] Example.db6
     = (inl (Py.HTTPException 404 "記録が見つかりません"), Example.db6)
  /\ fits_int64 7 = true
  /\ request (create_record Example.bench Example.alice) [] Example.db6
     = (inl (Py.HTTPException 404 "エクササイズが見つかりません"), Example.db6)
  /\ request (delete_category 1 Example.alice) []
       (serve Example.hash (DeleteCategory 1 Example.bob) [] Example.db6)
     = (inl (Py.HTTPException 404 "カテゴリが見つかりません"),
        serve Example.hash (DeleteCategory 1 Example.bob) [] Example.db6)
  /\ ~ In 99 (map Category.id (categories Example.db6))
  /\ fits_int64 99 = true
  /\ request (delete_category 99 Example.alice) [] Example.db6
     = (inl (Py.HTTPException 404 "カテゴリが見つかりません"), Example.db6).
Proof.
  assert (Hneq : User.id Example.alice <> User.id Example.bob) by discriminate.
  assert (Habsent : ~ In 99 (map Category.id (categories Example.db6)))
    by (simpl; intuition discriminate).
  assert (Hlegs : In (Category.mk 1 "legs" 2) (categories Example.db6))
    by (simpl; auto).
  pose proof (@foreign_ids_not_found Example.hash Example.db6 Example.alice
                Example.bob [] example_db6_pk_unique Hneq)
    as (Hc & _ & _ & Hr & Hcr & Hgone & _ & _ & Hk & _).
  split; [exact example_db6_pk_unique|].
  split; [exact Hneq|].
  split; [exact (Hc (Category.mk 1 "legs" 2) Hlegs eq_refl)|].
  split.
  { refine (Hr Example.logged _ _); [simpl; auto|reflexivity]. }
  split; [reflexivity|]. split.
  { refine (Hcr (Exercise.mk 7 "ベンチプレス" None 2) Example.bench _ eq_refl
                eq_refl eq_refl).
    simpl; auto 20. }
  split; [exact (proj2 (Hgone (Category.mk 1 "legs" 2) Hlegs eq_refl))|].
  split; [exact Habsent|]. split; [reflexivity|].
  exact (Hk 99 Habsent eq_refl).
Defined.

(** ** Failed requests *)

Ltac fails_unchanged :=
  match goal with
  | |- context [commits ?f] =>
      destruct (commits f); cbn [fst snd]; intros; congruence
  | _ => cbn [fst snd]; intros; congruence
  end.

(** Apart from [register], a handler that raises, whatever the exception
    (404, an int that SQLite does not bind, an overflow of the volume, a
    refused commit, a failed conversion of the statistics), leaves the
    stored database exactly as it was. *)
Theorem failed_request_stores_nothing :
  forall u fate db,
    (forall category err,
        fst (request (create_category category u) fate db) = inl err ->
        snd (request (create_category category u) fate db) = db)
    /\ (forall cid err,
          fst (request (delete_category cid u) fate db) = inl err ->
          snd (request (delete_category cid u) fate db) = db)
    /\ (forall exercise err,
          fst (request (create_exercise exercise u) fate db) = inl err ->
          snd (request (create_exercise exercise u) fate db) = db)
    /\ (forall eid upd err,
          fst (request (update_exercise eid upd u) fate db) = inl err ->
          snd (request (update_exercise eid upd u) fate db) = db)
    /\ (forall eid err,
          fst (request (delete_exercise eid u) fate db) = inl err ->
          snd (request (delete_exercise eid u) fate db) = db)
    /\ (forall record err,
          fst (request (create_record record u) fate db) = inl err ->
          snd (request (create_record record u) fate db) = db)
    /\ (forall rid err,
          fst (request (delete_record rid u) fate db) = inl err ->
          snd (request (delete_record rid u) fate db) = db)
    /\ (forall v err,
          fst (request (get_stats v u) fate db) = inl err ->
          snd (request (get_stats v u) fate db) = db).
Proof.
  intros u fate db. repeat split.
  - intros category err. rewrite request_create_category. fails_unchanged.
  - intros cid err.
    destruct (hd_error (filter (fun x => (Category.id x =? cid)
                                         && (Category.user_id x =? User.id u))
                          (categories db))) as [x|] eqn:Hq.
    + rewrite (request_delete_category_found cid u fate db x Hq).
      fails_unchanged.
    + rewrite request_delete_category_missing; [reflexivity|].
      now apply (lookup_none_foreign Category.id Category.user_id).
  - intros exercise err. rewrite request_create_exercise. fails_unchanged.
  - intros eid upd err.
    destruct (hd_error (filter (fun x => (Exercise.id x =? eid)
                                         && (Exercise.user_id x =? User.id u))
                          (exercises db))) as [x|] eqn:Hq.
    + rewrite (request_update_exercise_found eid upd u fate db x Hq).
      fails_unchanged.
    + rewrite request_update_exercise_missing; [reflexivity|].
      now apply (lookup_none_foreign Exercise.id Exercise.user_id).
  - intros eid err.
    destruct (hd_error (filter (fun x => (Exercise.id x =? eid)
                                         && (Exercise.user_id x =? User.id u))
                          (exercises db))) as [x|] eqn:Hq.
    + rewrite (request_delete_exercise_found eid u fate db x Hq).
      fails_unchanged.
    + rewrite request_delete_exercise_missing; [reflexivity|].
      now apply (lookup_none_foreign Exercise.id Exercise.user_id).
  - intros record err.
    destruct (fits_int64 (RecordCreate.exercise_id record)) eqn:Hfit.
    2:{ now rewrite (request_create_record_unbound record u fate db Hfit). }
    destruct (hd_error (filter (fun x => (Exercise.id x =? RecordCreate.exercise_id record)
                                         && (Exercise.user_id x =? User.id u))
                          (exercises db))) as [x|] eqn:Hq.
    + rewrite (request_create_record_found record u fate db x Hfit Hq).
      destruct (Py.product _ _ _); [reflexivity|].
      destruct (fits_int64 (RecordCreate.reps record)
                && fits_int64 (RecordCreate.sets record)); [|reflexivity].
      fails_unchanged.
    + rewrite request_create_record_missing; [reflexivity|exact Hfit|].
      now apply (lookup_none_foreign Exercise.id Exercise.user_id).
  - intros rid err.
    destruct (hd_error (filter (fun x => (WorkoutRecord.id x =? rid)
                                         && (WorkoutRecord.user_id x =? User.id u))
                          (workout_records db))) as [x|] eqn:Hq.
    + rewrite (request_delete_record_found rid u fate db x Hq).
      fails_unchanged.
    + rewrite request_delete_record_missing; [reflexivity|].
      now apply (lookup_none_foreign WorkoutRecord.id WorkoutRecord.user_id).
  - intros v err _. apply request_get_stats_db.
Qed.

(** ** One user's calls and another user's data *)

Lemma filter_map_same {A} (p : A -> bool) (f : A -> A) (l : list A) :
  (forall x, In x l -> p (f x) = p x) ->
  (forall x, In x l -> p x = true -> f x = x) ->
  filter p (map f l) = filter p l.
Proof.
  induction l as [|a l IH]; intros Hp Hf; simpl; [reflexivity|].
  rewrite (Hp a (or_introl eq_refl)).
  destruct (p a) eqn:E.
  - rewrite (Hf a (or_introl eq_refl) E). f_equal.
    apply IH; intros; [apply Hp|apply Hf]; simpl; auto.
  - apply IH; intros; [apply Hp|apply Hf]; simpl; auto.
Qed.

Lemma filter_filter_same {A} (p q : A -> bool) (l : list A) :
  (forall x, In x l -> p x = true -> q x = true) ->
  filter p (filter q l) = filter p l.
Proof.
  induction l as [|a l IH]; intros H; simpl; [reflexivity|].
  destruct (q a) eqn:Eq; simpl.
  - destruct (p a); [f_equal|]; apply IH; intros; apply H; simpl; auto.
  - destruct (p a) eqn:Ep.
    + rewrite (H a (or_introl eq_refl) Ep) in Eq. discriminate.
    + apply IH. intros. apply H; simpl; auto.
Qed.

Lemma get_stats_same_records v u fate db db' :
  filter (fun r => WorkoutRecord.user_id r =? User.id u) (workout_records db')
  = filter (fun r => WorkoutRecord.user_id r =? User.id u) (workout_records db) ->
  fst (request (get_stats v u) fate db') = fst (request (get_stats v u) fate db).
Proof.
  intros H. rewrite !request_get_stats. cbv zeta. rewrite H.
  destruct (Py.sum v _) as [e|total]; [reflexivity|].
  destruct (Py.int total); reflexivity.
Qed.

Lemma filter_map_comm {A} (p : A -> bool) (f : A -> A) (l : list A) :
  (forall x, p (f x) = p x) -> filter p (map f l) = map f (filter p l).
Proof.
  intros H. induction l as [|a l IH]; simpl; [reflexivity|].
  rewrite H. destruct (p a); simpl; now rewrite IH.
Qed.

(** What a call made by [u1] leaves of the rows of another user [u2]. *)
Lemma foreign_rows_kept (h : string -> string) c fate db u1 u2 :
  pk_unique db -> record_links_owned db ->
  caller c = Some u1 -> User.id u1 <> User.id u2 ->
  let after := serve h c fate db in
  filter (fun x => Category.user_id x =? User.id u2) (categories after)
  = filter (fun x => Category.user_id x =? User.id u2) (categories db)
  /\ filter (fun x => WorkoutRecord.user_id x =? User.id u2)
       (workout_records after)
     = filter (fun x => WorkoutRecord.user_id x =? User.id u2)
         (workout_records db)
  /\ ((forall cid, c <> DeleteCategory cid u1) ->
      filter (fun x => Exercise.user_id x =? User.id u2) (exercises after)
      = filter (fun x => Exercise.user_id x =? User.id u2) (exercises db))
  /\ (filter (fun x => Exercise.user_id x =? User.id u2) (exercises after)
      = filter (fun x => Exercise.user_id x =? User.id u2) (exercises db)
      \/ exists cid,
           c = DeleteCategory cid u1
           /\ filter (fun x => Exercise.user_id x =? User.id u2)
                (exercises after)
              = map (clear_category cid)
                  (filter (fun x => Exercise.user_id x =? User.id u2)
                     (exercises db))).
Proof.
  intros Hpk Hlinks Hcaller Hne after. unfold after.
  pose proof Hpk as (_ & Hndc & Hnde & Hndr).
  assert (Hneq : (User.id u1 =? User.id u2) = false) by now apply Z.eqb_neq.
  apply serve_cases; cbn [users categories exercises workout_records].
  - auto.
  - intros user ->. discriminate Hcaller.
  - intros category u ->. injection Hcaller as ->.
    rewrite filter_snoc_other by exact Hneq. auto.
  - intros cid u x -> Hx Hid Hu. injection Hcaller as ->.
    split; [|split; [reflexivity|split]].
    + apply filter_filter_same. intros y Hy Hp.
      apply negb_true_iff, Z.eqb_neq. intros Hyid. apply Z.eqb_eq in Hp.
      assert (y = x) by (apply (NoDup_map_inj Category.id (categories db));
                         auto; congruence).
      subst y. congruence.
    + intros Hno. exfalso. now apply (Hno cid).
    + right. exists cid. split; [reflexivity|].
      rewrite (clear_after_unlink_loop cid (exercises db) Hnde).
      apply filter_map_comm. intros e. now rewrite clear_category_user_id.
  - intros exercise u ->. injection Hcaller as ->.
    rewrite filter_snoc_other by exact Hneq. auto.
  - intros eid upd u e -> He Hid Hu. injection Hcaller as ->.
    assert (Hsame : filter (fun x => Exercise.user_id x =? User.id u2)
                      (map (assign_category eid (ExerciseUpdate.category_id upd))
                         (exercises db))
                    = filter (fun x => Exercise.user_id x =? User.id u2)
                        (exercises db)).
    { apply filter_map_same.
      - intros x _. now rewrite assign_category_user_id.
      - intros x Hx Hp. unfold assign_category.
        destruct (Exercise.id x =? eid) eqn:E; [|reflexivity].
        apply Z.eqb_eq in E, Hp.
        assert (x = e) by (apply (NoDup_map_inj Exercise.id (exercises db));
                           auto; congruence).
        subst x. congruence. }
    rewrite Hsame. auto.
  - intros eid u e -> He Hid Hu. injection Hcaller as ->.
    assert (Hex : filter (fun x => Exercise.user_id x =? User.id u2)
                    (filter (fun x => negb (Exercise.id x =? eid)) (exercises db))
                  = filter (fun x => Exercise.user_id x =? User.id u2)
                      (exercises db)).
    { apply filter_filter_same. intros y Hy Hp.
      apply negb_true_iff, Z.eqb_neq. intros Hyid. apply Z.eqb_eq in Hp.
      assert (y = e) by (apply (NoDup_map_inj Exercise.id (exercises db));
                         auto; congruence).
      subst y. congruence. }
    rewrite Hex. split; [reflexivity|]. split; [|auto].
    apply filter_map_same.
    + intros r _. now rewrite clear_exercise_user_id.
    + intros r Hr Hp. unfold clear_exercise.
      destruct (option_Z_eqb (WorkoutRecord.exercise_id r) (Some eid)) eqn:E;
        [|reflexivity].
      apply option_Z_eqb_eq in E. apply Z.eqb_eq in Hp.
      destruct (Hlinks r eid Hr E) as (e' & He' & Hid' & Hu').
      assert (e' = e) by (apply (NoDup_map_inj Exercise.id (exercises db));
                          auto; congruence).
      subst e'. congruence.
  - intros record u e v -> _ _ _ _. injection Hcaller as ->.
    rewrite filter_snoc_other by exact Hneq. auto.
  - intros rid u r -> Hr Hid Hu. injection Hcaller as ->.
    split; [reflexivity|]. split; [|auto].
    apply filter_filter_same. intros y Hy Hp.
    apply negb_true_iff, Z.eqb_neq. intros Hyid. apply Z.eqb_eq in Hp.
    assert (y = r) by (apply (NoDup_map_inj WorkoutRecord.id (workout_records db));
                       auto; congruence).
    subst y. congruence.
Qed.

(** In a reachable database, a call made by one user changes nothing of
    what another user reads: [get_categories], [get_records] and
    [get_stats] answer the other user as before, and so does
    [get_exercises] unless the call is [delete_category]; after a
    [delete_category] the other user is listed the same exercises in the
    same order, each as it was except that a [category_id] equal to the
    deleted id is cleared. *)
Theorem other_users_reads_unchanged :
  forall (h : string -> string) c fate db u1 u2,
    reachable h db ->
    caller c = Some u1 ->
    User.id u1 <> User.id u2 ->
    let after := serve h c fate db in
    (forall fate',
        fst (request (get_categories u2) fate' after)
        = fst (request (get_categories u2) fate' db))
    /\ (forall fate',
          fst (request (get_records u2) fate' after)
          = fst (request (get_records u2) fate' db))
    /\ (forall v fate',
          fst (request (get_stats v u2) fate' after)
          = fst (request (get_stats v u2) fate' db))
    /\ ((forall cid, c <> DeleteCategory cid u1) ->
        forall fate',
          fst (request (get_exercises u2) fate' after)
          = fst (request (get_exercises u2) fate' db))
    /\ (forall fate' listed listed',
          fst (request (get_exercises u2) fate' db) = inr listed ->
          fst (request (get_exercises u2) fate' after) = inr listed' ->
          listed' = listed
          \/ exists cid,
               c = DeleteCategory cid u1
               /\ listed' = map (clear_category cid) listed).
Proof.
  intros h c fate db u1 u2 Hreach Hcaller Hne after.
  assert (Hlinks : record_links_owned db).
  { clear Hcaller. induction Hreach as [|k f d _ IH _]; [intros r eid []|].
    now apply record_links_owned_serve. }
  destruct (foreign_rows_kept h c fate db u1 u2
              (reachable_pk_unique h db Hreach) Hlinks Hcaller Hne)
    as (Hc & Hr & He & Hstrip).
  fold after in Hc, Hr, He, Hstrip.
  split; [intros fate'; rewrite !request_get_categories; cbn [fst];
          now rewrite Hc|].
  split; [intros fate'; rewrite !request_get_records; cbn [fst];
          now rewrite Hr|].
  split; [intros v fate'; now apply get_stats_same_records|].
  split.
  - intros Hno fate'. rewrite !request_get_exercises. cbn [fst].
    now rewrite (He Hno).
  - intros fate' listed listed'. rewrite !request_get_exercises. cbn [fst].
    intros H1 H2. injection H1 as <-. injection H2 as <-. exact Hstrip.
Qed.

Lemma other_users_reads_unchanged_witness :
  reachable Example.hash Example.db6
  /\ fst (request (get_records Example.bob) []
            (serve Example.hash (DeleteExercise 1 Example.alice) [] Example.db6))
     = fst (request (get_records Example.bob) [] Example.db6)
  /\ fst (request (get_stats Py.From312 Example.bob) []
            (serve Example.hash (DeleteExercise 1 Example.alice) [] Example.db6))
     = fst (request (get_stats Py.From312 Example.bob) [] Example.db6).
Proof.
  assert (Hne : User.id Example.alice <> User.id Example.bob) by discriminate.
  destruct (other_users_reads_unchanged Example.hash
              (DeleteExercise 1 Example.alice) [] Example.db6 Example.alice
              Example.bob example_db6_reachable eq_refl Hne)
    as (_ & Hr & Hs & _).
  split; [exact example_db6_reachable|].
  split; [exact (Hr [])|exact (Hs Py.From312 [])].
Defined.

(** ** More on categories, registration and statistics *)

(** A committed [delete_category] on a category of the caller removes that
    category and no other, leaves users and records untouched, and
    deleting the same id again answers 404. *)
Theorem delete_category_removes_one :
  forall c u fate db,
    pk_unique db ->
    In c (categories db) ->
    Category.user_id c = User.id u ->
    commits fate = true ->
    let after := snd (request (delete_category (Category.id c) u) fate db) in
    (forall x, In x (categories after) <-> In x (categories db) /\ x <> c)
    /\ users after = users db
    /\ workout_records after = workout_records db
    /\ (forall fate',
          request (delete_category (Category.id c) u) fate' after
          = (inl (Py.HTTPException 404 "カテゴリが見つかりません"), after)).
Proof.
  intros c u fate db Hpk Hc Hu Hfate after.
  pose proof Hpk as (_ & Hnd & _).
  unfold after.
  rewrite (request_delete_category_owned db u c fate Hpk Hc Hu), Hfate.
  cbn [snd]. unfold without_category.
  cbn [users categories exercises workout_records].
  split.
  { intros x. rewrite filter_In, negb_true_iff, Z.eqb_neq. split.
    - intros [Hx Hne]. split; [exact Hx|]. congruence.
    - intros [Hx Hne]. split; [exact Hx|]. intros Hid. apply Hne.
      now apply (NoDup_map_inj Category.id (categories db)). }
  split; [reflexivity|]. split; [reflexivity|].
  intros fate'. apply request_delete_category_missing.
  cbn [categories]. intros x Hx Hid. apply filter_In in Hx as [_ Hx].
  apply negb_true_iff, Z.eqb_neq in Hx. contradiction.
Qed.

Lemma delete_category_removes_one_witness :
  pk_unique Example.db6
  /\ request (delete_category 1 Example.bob) []
       (snd (request (delete_category 1 Example.bob) [] Example.db6))
     = (inl (Py.HTTPException 404 "カテゴリが見つかりません"),
        snd (request (delete_category 1 Example.bob) [] Example.db6)).
Proof.
  assert (Hc : In (Category.mk 1 "legs" 2) (categories Example.db6))
    by (simpl; auto).
  destruct (delete_category_removes_one (Category.mk 1 "legs" 2) Example.bob
              [] Example.db6 example_db6_pk_unique Hc eq_refl eq_refl)
    as (_ & _ & _ & Hagain).
  split; [exact example_db6_pk_unique|exact (Hagain [])].
Defined.

(** Once the first commit of [register] has gone through, the email is
    taken: registering with it again answers 400 and stores nothing, also
    when the first registration itself failed on its second commit and
    left the user without the default exercises. *)
Theorem register_again_rejected :
  forall (h : string -> string) user user' fate fate' db,
    (forall x, In x (users db) -> User.email x <> UserCreate.email user) ->
    commits fate = true ->
    UserCreate.email user' = UserCreate.email user ->
    let after := snd (request (register h user) fate db) in
    request (register h user') fate' after
    = (inl (Py.HTTPException 400 "このメールアドレスは既に使用されています"),
       after).
Proof.
  intros h user user' fate fate' db Hnew Hfate Hemail after.
  apply request_register_duplicate.
  exists (User.mk (fresh_id (map User.id (users db))) (UserCreate.email user)
            (h (UserCreate.password user))).
  split; [|simpl; congruence].
  unfold after. rewrite (request_register_new h user fate db Hnew), Hfate.
  destruct (commits (tl fate)); cbn [snd users]; apply in_or_app; right;
    simpl; auto.
Qed.

Lemma register_again_rejected_witness :
  users (snd (request (register Example.hash Example.alice_form) [true; false]
                empty_db)) = [Example.alice]
  /\ exercises (snd (request (register Example.hash Example.alice_form)
                       [true; false] empty_db)) = []
  /\ request (register Example.hash Example.alice_form) []
       (snd (request (register Example.hash Example.alice_form) [true; false]
               empty_db))
     = (inl (Py.HTTPException 400 "このメールアドレスは既に使用されています"),
        snd (request (register Example.hash Example.alice_form) [true; false]
               empty_db)).
Proof.
  split; [reflexivity|]. split; [reflexivity|].
  apply (register_again_rejected Example.hash Example.alice_form
           Example.alice_form [true; false] [] empty_db);
    [intros x []|reflexivity|reflexivity].
Defined.

Lemma nodup_length_le (l : list string) :
  (List.length (nodup string_dec l) <= List.length l)%nat.
Proof.
  apply NoDup_incl_length; [apply NoDup_nodup|].
  intros x Hx. now apply nodup_In in Hx.
Qed.

(** Whenever [get_stats] returns, [total_workouts] is at most the number
    of the caller's records, it is 0 exactly when the caller has no
    record, and then [total_volume] is 0 and [max_weight] is the int 0. *)
Theorem get_stats_workouts_bounded :
  forall v u fate db stats,
    fst (request (get_stats v u) fate db) = inr stats ->
    let rs := filter (fun r => WorkoutRecord.user_id r =? User.id u)
                (workout_records db) in
    0 <= StatsResponse.total_workouts stats <= Z.of_nat (List.length rs)
    /\ (StatsResponse.total_workouts stats = 0 <-> rs = [])
    /\ (rs = [] ->
        StatsResponse.total_volume stats = 0
        /\ StatsResponse.max_weight stats = Py.Int 0).
Proof.
  intros v u fate db stats Hrun rs.
  rewrite request_get_stats in Hrun. cbv zeta in Hrun. fold rs in Hrun.
  destruct (Py.sum v (map (fun r => Py.or0 (WorkoutRecord.volume r)) rs))
    as [err|total] eqn:Hsum; [discriminate|].
  destruct (Py.int total) as [err|n] eqn:Hn; [discriminate|].
  cbn [fst] in Hrun. injection Hrun as <-.
  cbn [StatsResponse.total_workouts StatsResponse.total_volume
       StatsResponse.max_weight].
  split; [|split].
  - pose proof (nodup_length_le (map WorkoutRecord.date rs)) as Hle.
    rewrite length_map in Hle. unfold Py.set. lia.
  - split.
    + intros H0. destruct rs as [|r rs']; [reflexivity|].
      exfalso.
      assert (Hin : In (WorkoutRecord.date r)
                      (Py.set (map WorkoutRecord.date (r :: rs'))))
        by (apply nodup_In; simpl; auto).
      destruct (Py.set (map WorkoutRecord.date (r :: rs'))); [destruct Hin|].
      simpl in H0. lia.
    + intros ->. reflexivity.
  - intros Hnil. rewrite Hnil in Hsum |- *. unfold Py.sum in Hsum.
    simpl in Hsum. injection Hsum as <-. simpl in Hn.
    injection Hn as <-. auto.
Qed.

Lemma get_stats_workouts_bounded_witness :
  fst (request (get_stats Py.From312 Example.alice) [] Example.db10)
  = inr (StatsResponse.mk 2 350 (Py.Float Example.f200))
  /\ 0 <= 2 <= Z.of_nat (List.length
                           (filter (fun r => WorkoutRecord.user_id r
                                             =? User.id Example.alice)
                              (workout_records Example.db10))).
Proof.
  assert (H : fst (request (get_stats Py.From312 Example.alice) [] Example.db10)
              = inr (StatsResponse.mk 2 350 (Py.Float Example.f200)))
    by (vm_compute; reflexivity).
  split; [exact H|].
  exact (proj1 (get_stats_workouts_bounded Py.From312 Example.alice []
                  Example.db10 _ H)).
Defined.
